(** * Contour generation from a classified point cloud

    A shallow embedding of [contourGen.py]: the body of the
    "Generate Contour Map" button (lines 72-106) and the colour table it
    reads (lines 17-37, 61-67).

    Numbers.  The script works on NumPy [float64] arrays.  Here a finite
    float is a rational [Q] and arithmetic is exact; NaN, which [griddata]
    produces outside the convex hull, is [None] in [option Q].  Rounding
    is therefore not part of the script as embedded.  Where rounding
    decides what a range contains, module [float64] carries out NumPy's
    computation of [np.arange] in binary64, on the primitive floats, so
    that the ranges of the script can be evaluated as the interpreter
    evaluates them.

    Libraries.  NumPy's [arange], [min], [max], [floor], [ceil],
    [meshgrid], boolean indexing and [ma.masked_invalid] are written out.
    SciPy's [griddata(method='linear')] is written out as barycentric
    interpolation over a triangulation; the triangulation itself (Qhull)
    is a parameter.  Matplotlib's axes are a parameter too: the script
    only threads them through [contour] and [clabel]. *)

From Stdlib Require Import PrimFloat.
From Stdlib Require SpecFloat FloatOps.
From Stdlib Require Import String QArith Qround Qminmax Qabs ZArith List Bool Sorted Lia Lra Psatz.
Import ListNotations.

Set Implicit Arguments.
Set Warnings "-inexact-float".

(** ** Exceptions *)

Inductive exn : Type :=
| KeyError                 (* dict[key] on a missing key *)
| IndexError               (* boolean index of the wrong length *)
| ValueError               (* np.min / np.max of an empty array, mismatched shapes *)
| ZeroDivisionError        (* int / int with a zero divisor *)
| ArangeError              (* whatever np.arange itself raises: no length for a zero step *)
| QhullError               (* scipy: the input has no non-degenerate triangle *)
| StreamlitAPIException    (* progress value out of range *)
| MatplotlibError.         (* anything ax.contour / ax.clabel raises *)

Inductive result (A : Type) : Type :=
| Ok (a : A)
| Raise (e : exn).

Arguments Ok {A} a.
Arguments Raise {A} e.

Definition bind {A B : Type} (m : result A) (k : A -> result B) : result B :=
  match m with
  | Ok a => k a
  | Raise e => Raise e
  end.

Declare Scope py_scope.
Delimit Scope py_scope with py.
Notation "x <- m ;; k" := (bind m (fun x => k))
  (at level 61, m at next level, right associativity) : py_scope.
Notation "' p <- m ;; k" := (bind m (fun x => match x with p => k end))
  (at level 61, p pattern, m at next level, right associativity) : py_scope.

Local Open Scope py_scope.
Local Open Scope Q_scope.

(** The call at the head of a chain of binds either raised, and the chain
    with it, or returned [v]. *)
Ltac bind_case v :=
  match goal with
  | |- context [bind ?m _] => destruct m as [v|]; simpl; [|discriminate]
  end.

(** ** NumPy *)

Module np.

(** [np.min(a)] *)
Definition min (a : list Q) : result Q :=
  match a with
  | [] => Raise ValueError
  | v :: rest => Ok (fold_left Qmin rest v)
  end.

(** [np.max(a)] *)
Definition max (a : list Q) : result Q :=
  match a with
  | [] => Raise ValueError
  | v :: rest => Ok (fold_left Qmax rest v)
  end.

(** [np.floor(v)] and [np.ceil(v)]: the result is again a float *)
Definition floor (v : Q) : Q := inject_Z (Qfloor v).
Definition ceil (v : Q) : Q := inject_Z (Qceiling v).

(** [np.arange(start, stop, step)]: [ceil((stop - start) / step)]
    values [start + i * step]; none when that length is not positive;
    no length can be computed for a zero step. *)
Definition arange (start stop step : Q) : result (list Q) :=
  if Qeq_bool step 0 then Raise ArangeError
  else
    let len := Z.to_nat (Qceiling ((stop - start) / step)) in
    Ok (map (fun i => start + inject_Z (Z.of_nat i) * step) (seq 0 len)).

(** [a == v], elementwise *)
Definition equal (a : list Z) (v : Z) : list bool :=
  map (fun c => Z.eqb c v) a.

(** [np.unique(a)]: the distinct values of [a], ascending. *)
Fixpoint insert_unique (v : Z) (l : list Z) : list Z :=
  match l with
  | [] => [v]
  | u :: l' =>
      if Z.ltb v u then v :: l
      else if Z.eqb v u then l
      else u :: insert_unique v l'
  end.

Definition unique (a : list Z) : list Z := fold_right insert_unique [] a.

(** [a[mask]] with a boolean mask: the mask must have the length of [a] *)
Fixpoint getitem {A : Type} (a : list A) (mask : list bool) : result (list A) :=
  match a, mask with
  | [], [] => Ok []
  | v :: a', b :: mask' =>
      rest <- getitem a' mask' ;;
      Ok (if b then v :: rest else rest)
  | _, _ => Raise IndexError
  end.

(** [np.meshgrid(x, y)]: one row per element of [y] *)
Definition meshgrid (x y : list Q) : list (list Q) * list (list Q) :=
  (map (fun _ => x) y, map (fun yv => map (fun _ => yv) x) y).

(** A masked array: the data and, cell by cell, whether it is masked. *)
Record masked_array : Type := {
  data : list (list (option Q));
  mask : list (list bool)
}.

Definition isnan (v : option Q) : bool :=
  match v with
  | None => true
  | Some _ => false
  end.

(** [np.ma.masked_invalid(a)] *)
Definition masked_invalid (a : list (list (option Q))) : masked_array :=
  {| data := a; mask := map (map isnan) a |}.

(** [m.mask.all()] *)
Definition mask_all (m : masked_array) : bool :=
  forallb (forallb (fun b : bool => b)) (mask m).

(** [m.mask[r][c]] *)
Definition mask_at (m : masked_array) (r c : nat) : option bool :=
  match nth_error (mask m) r with
  | Some row => nth_error row c
  | None => None
  end.

(** [m.data[r][c]] *)
Definition data_at (a : list (list (option Q))) (r c : nat) : option (option Q) :=
  match nth_error a r with
  | Some row => nth_error row c
  | None => None
  end.

End np.

(** ** NumPy's ranges in binary64 *)

Module float64.

(** The integer [n] as a float, rounded to nearest. *)
Definition of_Z (n : Z) : float :=
  FloatOps.SF2Prim (SpecFloat.binary_normalize FloatOps.prec FloatOps.emax n 0 false).

(** The numerator of a finite float [m * 2^e]. *)
Definition signed (s : bool) (m : positive) : Z :=
  if s then Z.neg m else Z.pos m.

(** A finite float rounded down and up to an integer; nothing for NaN and
    the infinities. *)
Definition floorZ (v : float) : option Z :=
  match FloatOps.Prim2SF v with
  | SpecFloat.S754_zero _ => Some 0%Z
  | SpecFloat.S754_finite s m e =>
      Some (if (0 <=? e)%Z then (signed s m * 2 ^ e)%Z
            else (signed s m / 2 ^ (- e))%Z)
  | _ => None
  end.

Definition ceilZ (v : float) : option Z :=
  match FloatOps.Prim2SF v with
  | SpecFloat.S754_zero _ => Some 0%Z
  | SpecFloat.S754_finite s m e =>
      Some (if (0 <=? e)%Z then (signed s m * 2 ^ e)%Z
            else (- ((- signed s m) / 2 ^ (- e)))%Z)
  | _ => None
  end.


(** [np.floor(v)] and [np.ceil(v)] *)
Definition floor (v : float) : float :=
  match floorZ v with
  | Some n => of_Z n
  | None => v
  end.

Definition ceil (v : float) : float :=
  match ceilZ v with
  | Some n => of_Z n
  | None => v
  end.

(** [np.min(a)] and [np.max(a)], for an array without NaN *)
Definition min (a : list float) : result float :=
  match a with
  | [] => Raise ValueError
  | v :: rest => Ok (fold_left (fun m u => if (u <? m)%float then u else m) rest v)
  end.

Definition max (a : list float) : result float :=
  match a with
  | [] => Raise ValueError
  | v :: rest => Ok (fold_left (fun m u => if (m <? u)%float then u else m) rest v)
  end.

(** [np.arange(start, stop, step)] as NumPy fills it: the length is the
    float [(stop - start) / step] rounded up; the first two values are
    [start] and [start + step]; with [delta] their difference, the i-th
    value is [start + i * delta]. *)
Definition arange (start stop step : float) : result (list float) :=
  match ceilZ ((stop - start) / step)%float with
  | None => Raise ArangeError
  | Some len =>
      let next := (start + step)%float in
      let delta := (next - start)%float in
      Ok (map (fun i => match i with
                        | O => start
                        | S O => next
                        | _ => (start + of_Z (Z.of_nat i) * delta)%float
                        end)
              (seq 0 (Z.to_nat len)))
  end.


(** Line 97: [np.arange(np.floor(np.min(z)), np.ceil(np.max(z)), 0.2)]. *)
Definition contour_levels (z : list float) : result (list float) :=
  lo <- min z ;;
  hi <- max z ;;
  arange (floor lo) (ceil hi) 0.2%float.

End float64.

(** ** SciPy: [griddata(points, values, xi, method='linear')] *)

Definition pt : Type := (Q * Q)%type.
Definition simplex : Type := (nat * nat * nat)%type.

(** Qhull's part of [griddata]: the triangles, as index triples into the
    sample points, for an input that is not degenerate. *)
Class Qhull : Type := {
  delaunay : list pt -> list simplex
}.

Module scipy.

(** Twice the signed area of the triangle [o a b]. *)
Definition cross (o a b : pt) : Q :=
  (fst a - fst o) * (snd b - snd o) - (snd a - snd o) * (fst b - fst o).

Definition pt_eqb (a b : pt) : bool :=
  Qeq_bool (fst a) (fst b) && Qeq_bool (snd a) (snd b).

(** All points on one line (or fewer than two distinct points): Qhull
    finds no initial simplex.  The test is exact; points that are on a
    line only up to rounding are not told apart from spread ones. *)
Definition collinearb (points : list pt) : bool :=
  match points with
  | [] => true
  | p0 :: rest =>
      match find (fun p => negb (pt_eqb p p0)) rest with
      | None => true
      | Some p1 => forallb (fun p => Qeq_bool (cross p0 p1 p) 0) rest
      end
  end.

(** Barycentric coordinates of [q] in the triangle [a b c]. *)
Definition barycentric (a b c q : pt) : option (Q * Q * Q) :=
  let d := cross a b c in
  if Qeq_bool d 0 then None
  else Some (cross q b c / d, cross a q c / d, cross a b q / d).

(** The coordinates of [q] in simplex [s] when [q] lies in it. *)
Definition locate (points : list pt) (s : simplex) (q : pt) : option (Q * Q * Q) :=
  let '(i, j, k) := s in
  match nth_error points i, nth_error points j, nth_error points k with
  | Some a, Some b, Some c =>
      match barycentric a b c q with
      | Some (l1, l2, l3) =>
          if Qle_bool 0 l1 && Qle_bool 0 l2 && Qle_bool 0 l3
          then Some (l1, l2, l3) else None
      | None => None
      end
  | _, _, _ => None
  end.

Fixpoint find_simplex (points : list pt) (tri : list simplex) (q : pt)
  : option (simplex * (Q * Q * Q)) :=
  match tri with
  | [] => None
  | s :: tri' =>
      match locate points s q with
      | Some l => Some (s, l)
      | None => find_simplex points tri' q
      end
  end.

(** The linear interpolant at [q]; [None] is the fill value NaN. *)
Definition linear (points : list pt) (values : list Q) (tri : list simplex) (q : pt)
  : option Q :=
  match find_simplex points tri q with
  | Some ((i, j, k), (l1, l2, l3)) =>
      match nth_error values i, nth_error values j, nth_error values k with
      | Some zi, Some zj, Some zk => Some (l1 * zi + l2 * zj + l3 * zk)
      | _, _, _ => None
      end
  | None => None
  end.

Definition map2 {A B C : Type} (f : A -> B -> C) (l1 : list A) (l2 : list B) : list C :=
  map (fun ab => f (fst ab) (snd ab)) (combine l1 l2).

Definition griddata {qhull : Qhull} (points : list Q * list Q) (values : list Q)
    (xi : list (list Q) * list (list Q)) : result (list (list (option Q))) :=
  let '(x, y) := points in
  if negb (Nat.eqb (length x) (length y) && Nat.eqb (length x) (length values))
  then Raise ValueError
  else
    let pts := combine x y in
    if collinearb pts then Raise QhullError
    else
      let tri := delaunay pts in
      Ok (map2 (map2 (fun gx gy => linear pts values tri (gx, gy))) (fst xi) (snd xi)).

End scipy.

(** ** Matplotlib *)

(** The arguments of the one [ax.contour] call of the script. *)
Record contour_args : Type := {
  c_X : list (list Q);
  c_Y : list (list Q);
  c_Z : np.masked_array;
  c_levels : list Q;
  c_colors : string;
  c_linewidths : Q
}.

(** What the script uses of Matplotlib.  [subplots] is the black figure of
    lines 73-74; [contour] and [clabel] (with [fmt='%.2f'], white, size 6,
    inline) may raise; [axis_off] is line 103. *)
Class Matplotlib : Type := {
  Axes : Type;
  QuadContourSet : Type;
  subplots : Axes;
  contour : Axes -> contour_args -> result (Axes * QuadContourSet);
  clabel : Axes -> QuadContourSet -> result Axes;
  axis_off : Axes -> Axes
}.

(** ** Streamlit's progress bar *)

Module st.

(** The values the bar was given, oldest first. *)
Definition progress_bar : Type := list Q.

Definition in_range (v : Q) : bool := Qle_bool 0 v && Qle_bool v 1.

(** [st.progress(v)] creates the bar. *)
Definition progress (v : Q) : result progress_bar :=
  if in_range v then Ok [v] else Raise StreamlitAPIException.

(** [bar.progress(v)] moves it. *)
Definition update (bar : progress_bar) (v : Q) : result progress_bar :=
  if in_range v then Ok (bar ++ [v]) else Raise StreamlitAPIException.

End st.

(** ** Python dictionaries keyed by classification code *)

Module dict.

Definition t (V : Type) : Type := list (Z * V).

(** [d.get(k, default)] *)
Fixpoint get {V : Type} (d : t V) (k : Z) (default : V) : V :=
  match d with
  | [] => default
  | (k', v) :: d' => if Z.eqb k' k then v else get d' k default
  end.

(** [d[k]] *)
Fixpoint getitem {V : Type} (d : t V) (k : Z) : result V :=
  match d with
  | [] => Raise KeyError
  | (k', v) :: d' => if Z.eqb k' k then Ok v else getitem d' k
  end.

(** [d[k] = v] *)
Fixpoint setitem {V : Type} (d : t V) (k : Z) (v : V) : t V :=
  match d with
  | [] => [(k, v)]
  | (k', v') :: d' => if Z.eqb k' k then (k, v) :: d' else (k', v') :: setitem d' k v
  end.

End dict.

(** ** The script *)

Local Open Scope string_scope.

Definition default_classification_styles : dict.t (string * string) :=
  [ (0%Z,  ("Created, never classified", "lightgray"));
    (1%Z,  ("Unclassified", "gray"));
    (2%Z,  ("Ground", "white"));
    (3%Z,  ("Low Vegetation", "lightgreen"));
    (4%Z,  ("Medium Vegetation", "green"));
    (5%Z,  ("High Vegetation", "darkgreen"));
    (6%Z,  ("Building", "slategray"));
    (7%Z,  ("Low Point (noise)", "red"));
    (8%Z,  ("Model Key-point (mass point)", "orange"));
    (9%Z,  ("Water", "blue"));
    (10%Z, ("Rail", "purple"));
    (11%Z, ("Road Surface", "brown"));
    (12%Z, ("Reserved", "pink"));
    (13%Z, ("Wire Guard", "cyan"));
    (14%Z, ("Wire Conductor", "deepskyblue"));
    (15%Z, ("Transmission Tower", "gold"));
    (16%Z, ("Wire Structure Connector", "coral"));
    (17%Z, ("Bridge Deck", "sienna"));
    (18%Z, ("High Noise", "crimson")) ].

(** One point of the loaded file. *)
Record point : Type := {
  pt_x : Q;
  pt_y : Q;
  pt_z : Q;
  pt_classification : Z
}.

(** The loaded file: [las.x], [las.y], [las.z] and [las.classification]
    are its columns. *)
Definition las_data : Type := list point.

Definition las_x (las : las_data) : list Q := map pt_x las.
Definition las_y (las : las_data) : list Q := map pt_y las.
Definition las_z (las : las_data) : list Q := map pt_z las.
Definition las_classification (las : las_data) : list Z := map pt_classification las.

(** Lines 64-67: the label and the picked colour of one selected class.
    [color_picker cls label default] is the user's choice. *)
Definition pick_color (color_picker : Z -> string -> string -> string)
    (custom_colors : dict.t (string * string)) (cls : Z) : dict.t (string * string) :=
  let '(classification, default_color_name) :=
    dict.get default_classification_styles cls ("Unknown", "yellow") in
  let user_color := color_picker cls classification default_color_name in
  dict.setitem custom_colors cls (classification, user_color).

(** Lines 61-67: the loop over the selected classes. *)
Definition customize_colors (color_picker : Z -> string -> string -> string)
    (selected_classes : list Z) : dict.t (string * string) :=
  fold_left (pick_color color_picker) selected_classes [].

Local Close Scope string_scope.

(** Lines 80-83: the columns of the points of one class. *)
Definition select_class (las : las_data) (class_code : Z)
  : result (list Q * list Q * list Q) :=
  let mask := np.equal (las_classification las) class_code in
  x <- np.getitem (las_x las) mask ;;
  y <- np.getitem (las_y las) mask ;;
  z <- np.getitem (las_z las) mask ;;
  Ok (x, y, z).

(** Lines 88-89: the two grid axes. *)
Definition grid_ranges (x y : list Q) (grid_spacing : Q) : result (list Q * list Q) :=
  x_min <- np.min x ;;
  x_max <- np.max x ;;
  x_range <- np.arange x_min x_max grid_spacing ;;
  y_min <- np.min y ;;
  y_max <- np.max y ;;
  y_range <- np.arange y_min y_max grid_spacing ;;
  Ok (x_range, y_range).

(** Line 97: the contour levels. *)
Definition contour_levels (z : list Q) : result (list Q) :=
  z_min <- np.min z ;;
  z_max <- np.max z ;;
  np.arange (np.floor z_min) (np.ceil z_max) 0.2.

(** Line 101: [(i + 1) / len(selected_classes)] *)
Definition truediv (a b : Z) : result Q :=
  if Z.eqb b 0 then Raise ZeroDivisionError
  else Ok (inject_Z a / inject_Z b).

(** What the button leaves behind: the axes handed to [savefig] and the
    values shown by the progress bar. *)
Record output {mpl : Matplotlib} : Type := {
  image : Axes;
  reported : st.progress_bar
}.

Section Generate.

Context {qhull : Qhull} {mpl : Matplotlib}.

Variable las : las_data.
Variable selected_classes : list Z.
Variable custom_colors : dict.t (string * string).
Variable line_width : Q.
Variable grid_spacing : Q.

(** Lines 79-101: the body of the loop.  Both [continue]s leave the axes
    and the bar as they are. *)
Definition class_body (i : nat) (class_code : Z) (s : Axes * st.progress_bar)
  : result (Axes * st.progress_bar) :=
  let '(ax, progress_bar) := s in
  '(classification, color) <- dict.getitem custom_colors class_code ;;
  '(x, y, z) <- select_class las class_code ;;
  if (length z <? 100)%nat then Ok s
  else
    '(x_range, y_range) <- grid_ranges x y grid_spacing ;;
    let '(grid_x, grid_y) := np.meshgrid x_range y_range in
    grid_z <- scipy.griddata (x, y) z (grid_x, grid_y) ;;
    let grid_z := np.masked_invalid grid_z in
    if np.mask_all grid_z then Ok s
    else
      levels <- contour_levels z ;;
      '(ax, contours) <- contour ax
          {| c_X := grid_x; c_Y := grid_y; c_Z := grid_z; c_levels := levels;
             c_colors := color; c_linewidths := line_width |} ;;
      ax <- clabel ax contours ;;
      fraction <- truediv (Z.of_nat i + 1) (Z.of_nat (length selected_classes)) ;;
      progress_bar <- st.update progress_bar fraction ;;
      Ok (ax, progress_bar).

(** Line 78: [for i, class_code in enumerate(...)], from index [i] on. *)
Fixpoint for_classes (i : nat) (classes : list Z) (s : Axes * st.progress_bar)
  : result (Axes * st.progress_bar) :=
  match classes with
  | [] => Ok s
  | class_code :: rest =>
      s' <- class_body i class_code s ;;
      for_classes (S i) rest s'
  end.

(** Lines 73-106. *)
Definition generate : result output :=
  let ax := subplots in
  progress_bar <- st.progress 0 ;;
  '(ax, progress_bar) <- for_classes 0 selected_classes (ax, progress_bar) ;;
  Ok {| image := axis_off ax; reported := progress_bar |}.

End Generate.

(** Lines 55-106 together: the colours are those of the selected classes. *)
Definition run {qhull : Qhull} {mpl : Matplotlib} (color_picker : Z -> string -> string -> string)
    (las : las_data) (selected_classes : list Z) (line_width grid_spacing : Q)
  : result output :=
  generate las selected_classes (customize_colors color_picker selected_classes)
    line_width grid_spacing.

(** ** Vocabulary of the properties *)

(** The points of the file carrying [code], in file order. *)
Definition class_subset (las : las_data) (code : Z) : list point :=
  filter (fun p => Z.eqb (pt_classification p) code) las.

Definition class_xy (las : las_data) (code : Z) : list pt :=
  map (fun p => (pt_x p, pt_y p)) (class_subset las code).

(** [l] is the progression [start, start + step, ...] cut off before
    [stop]. *)
Definition half_open_progression (l : list Q) (start stop step : Q) : Prop :=
  Z.of_nat (length l) = Qceiling ((stop - start) / step)
  /\ forall i v, nth_error l i = Some v ->
       v == start + inject_Z (Z.of_nat i) * step /\ v < stop.

(** [m] is the least, respectively the greatest, element of [v]. *)
Definition least (v : list Q) (m : Q) : Prop :=
  In m v /\ Forall (fun u => m <= u) v.

Definition greatest (v : list Q) (m : Q) : Prop :=
  In m v /\ Forall (fun u => u <= m) v.

(** Consecutive elements of [l] differ by exactly [step]. *)
Definition constant_step (l : list Q) (step : Q) : Prop :=
  forall i u v, nth_error l i = Some u -> nth_error l (S i) = Some v -> v - u == step.

(** Every value the bar has shown is a fraction, they never decrease, and
    with [len] classes selected none exceeds [i / len]. *)
Definition shown_up_to (len i : nat) (bar : st.progress_bar) : Prop :=
  StronglySorted Qle bar
  /\ Forall (fun v => 0 <= v /\ v <= 1
                      /\ v * inject_Z (Z.of_nat len) <= inject_Z (Z.of_nat i)) bar.

Module hull.

Fixpoint total (w : list Q) : Q :=
  match w with
  | [] => 0
  | a :: w' => a + total w'
  end.

Fixpoint wsum (w v : list Q) : Q :=
  match w, v with
  | a :: w', b :: v' => a * b + wsum w' v'
  | _, _ => 0
  end.

(** [w] with [a] added to its [i]-th weight. *)
Fixpoint add_at (i : nat) (a : Q) (w : list Q) : list Q :=
  match w with
  | [] => []
  | x :: w' =>
      match i with
      | O => (x + a) :: w'
      | S i' => x :: add_at i' a w'
      end
  end.

(** [q] is a convex combination of the sample points. *)
Definition in_hull (points : list pt) (q : pt) : Prop :=
  exists w : list Q,
    length w = length points
    /\ Forall (fun a => 0 <= a) w
    /\ total w == 1
    /\ fst q == wsum w (map fst points)
    /\ snd q == wsum w (map snd points).

Definition same_place (a b : pt) : Prop :=
  fst a == fst b /\ snd a == snd b.


(** No three sample points span a triangle. *)
Definition collinear (points : list pt) : Prop :=
  forall a b c, In a points -> In b points -> In c points -> scipy.cross a b c == 0.

(** [q] lies in the triangle [s] of the samples, edges and corners
    included, and that triangle is not flat. *)
Definition in_triangle (points : list pt) (s : simplex) (q : pt) : Prop :=
  exists a b c,
    nth_error points (fst (fst s)) = Some a
    /\ nth_error points (snd (fst s)) = Some b
    /\ nth_error points (snd s) = Some c
    /\ ~ scipy.cross a b c == 0
    /\ in_hull [a; b; c] q.



(** The triangles leave no hole in the convex hull. *)
Definition covers (points : list pt) (tri : list simplex) : Prop :=
  forall q, in_hull points q -> exists s, In s tri /\ scipy.locate points s q <> None.

(** A sample point met by a triangle sits at one of its corners. *)
Definition conforming (points : list pt) (tri : list simplex) : Prop :=
  forall s q l i p,
    In s tri -> nth_error points i = Some p -> same_place p q ->
    scipy.locate points s q = Some l ->
    exists k pk,
      (k = fst (fst s) \/ k = snd (fst s) \/ k = snd s)
      /\ nth_error points k = Some pk /\ same_place pk q.

End hull.

(** ** Stand-ins for the libraries, to run the script on examples *)

(** Axes that remember the [contour] calls they received. *)
Definition recording_axes : Matplotlib := {|
  Axes := list contour_args;
  QuadContourSet := contour_args;
  subplots := [];
  contour := fun ax args => Ok (ax ++ [args], args);
  clabel := fun ax _ => Ok ax;
  axis_off := fun ax => ax
|}.


(** A triangulation for three samples: the one triangle they span. *)
Definition one_triangle : Qhull := {|
  delaunay := fun _ => [(0%nat, 1%nat, 2%nat)]
|}.

(** Four samples of which the second lies on top of the first: the
    triangle of the other three. *)
Definition skip_second : Qhull := {|
  delaunay := fun _ => [(0%nat, 2%nat, 3%nat)]
|}.

(** The unit squares of a 10 x 10 lattice, listed row by row, cut in two:
    the corners of the square at column [i], row [j] are the samples
    [10 j + i], [10 j + i + 1], [10 j + i + 10] and [10 j + i + 11]. *)
Definition lattice_triangles : Qhull := {|
  delaunay := fun _ =>
    flat_map (fun j =>
      flat_map (fun i =>
        let k := (10 * j + i)%nat in
        [(k, S k, (k + 10)%nat); (S k, (k + 11)%nat, (k + 10)%nat)])
        (seq 0 9))
      (seq 0 9)
|}.

(** [n] points of class [code] on the 10-column lattice, with [z = x + y]. *)
Definition points_on_a_lattice (n : nat) (code : Z) : las_data :=
  map (fun k => {| pt_x := inject_Z (Z.of_nat (k mod 10));
                   pt_y := inject_Z (Z.of_nat (k / 10));
                   pt_z := inject_Z (Z.of_nat (k mod 10 + k / 10));
                   pt_classification := code |})
      (seq 0 n).


(** The lattice with one more return at its first corner, five units
    above the first. *)
Definition stacked_lattice : las_data :=
  points_on_a_lattice 100 2
  ++ [{| pt_x := 0; pt_y := 0; pt_z := 5; pt_classification := 2 |}].

(** 100 points of class [code] on the two diagonals [x + y = 48.25] and
    [x + y = 48.75], with [z = x]: a thin band, like a wire. *)
Definition two_diagonals (code : Z) : las_data :=
  map (fun i => {| pt_x := inject_Z (Z.of_nat i);
                   pt_y := 48.25 - inject_Z (Z.of_nat i);
                   pt_z := inject_Z (Z.of_nat i); pt_classification := code |})
      (seq 0 50)
  ++ map (fun i => {| pt_x := inject_Z (Z.of_nat i);
                      pt_y := 48.75 - inject_Z (Z.of_nat i);
                      pt_z := inject_Z (Z.of_nat i); pt_classification := code |})
       (seq 0 50).


Definition default_picker (cls : Z) (label default : string) : string := default.

(** [n] points of class [code] along the line [y = 0], [z = x]. *)
Definition points_on_a_line (n : nat) (code : Z) : las_data :=
  map (fun i => {| pt_x := inject_Z (Z.of_nat i); pt_y := 0;
                   pt_z := inject_Z (Z.of_nat i); pt_classification := code |})
      (seq 0 n).

(** ** The rest of the script *)

(** Line 52: the classification codes the selector offers. *)
Definition unique_classes (las : las_data) : list Z :=
  np.unique (las_classification las).

(** Lines 58 and 64: [classification_styles.get(cls, ("Unknown", "yellow"))]. *)
Definition style_of (cls : Z) : string * string :=
  dict.get default_classification_styles cls ("Unknown", "yellow")%string.

(** The entry lines 64-67 store for [cls]. *)
Definition picked_style (color_picker : Z -> string -> string -> string) (cls : Z)
  : string * string :=
  (fst (style_of cls), color_picker cls (fst (style_of cls)) (snd (style_of cls))).

(** The value line 101 reports after the class at index [i] of [len]. *)
Definition fraction_at (len i : nat) : Q :=
  inject_Z (Z.of_nat i + 1) / inject_Z (Z.of_nat len).

(** A grid axis over the extent [lo .. hi]: ascending; empty when the
    extent has no width, and otherwise from [lo] itself to a last node
    less than two steps short of [hi] and less than one step past it. *)
Definition axis_span (l : list Q) (lo hi step : Q) : Prop :=
  StronglySorted Qlt l
  /\ (l = [] <-> hi <= lo)
  /\ (lo < hi ->
      exists first final,
        hd_error l = Some first /\ first == lo
        /\ nth_error l (length l - 1) = Some final
        /\ hi - 2 * step < final /\ final < hi + step).

(** A class the first [continue] lets through. *)
Definition large_enough (las : las_data) (c : Z) : bool :=
  negb (length (class_subset las c) <? 100)%nat.

(** The [contour] call of the script for class [c]: its grid, field,
    levels, colour and line width. *)
Definition call_of {qhull : Qhull} (las : las_data) (custom_colors : dict.t (string * string))
    (line_width grid_spacing : Q) (c : Z) (call : contour_args) : Prop :=
  exists classification x y z x_range y_range grid_z,
    dict.getitem custom_colors c = Ok (classification, c_colors call)
    /\ select_class las c = Ok (x, y, z)
    /\ (100 <= length z)%nat
    /\ grid_ranges x y grid_spacing = Ok (x_range, y_range)
    /\ c_X call = fst (np.meshgrid x_range y_range)
    /\ c_Y call = snd (np.meshgrid x_range y_range)
    /\ scipy.griddata (x, y) z (np.meshgrid x_range y_range) = Ok grid_z
    /\ c_Z call = np.masked_invalid grid_z
    /\ np.mask_all (c_Z call) = false
    /\ contour_levels z = Ok (c_levels call)
    /\ c_linewidths call = line_width.

(** [ax'] is [ax] after the given [contour] calls, each followed by its
    [clabel], in that order. *)
Inductive drawn_onto {mpl : Matplotlib} : Axes -> list contour_args -> Axes -> Prop :=
| drawn_nothing (ax : Axes) : drawn_onto ax [] ax
| drawn_first (ax ax1 ax2 ax3 : Axes) (call : contour_args) (contours : QuadContourSet)
    (calls : list contour_args) :
    contour ax call = Ok (ax1, contours) ->
    clabel ax1 contours = Ok ax2 ->
    drawn_onto ax2 calls ax3 ->
    drawn_onto ax (call :: calls) ax3.

(** ** The result monad *)

Lemma bind_ok {A B : Type} (m : result A) (k : A -> result B) (b : B) :
  bind m k = Ok b -> exists a, m = Ok a /\ k a = Ok b.
Proof.
  destruct m as [a|e]; simpl; intros E.
  - exists a. split; [reflexivity | exact E].
  - discriminate E.
Qed.

(** ** Selecting a class *)

Lemma getitem_equal {A : Type} (f : point -> A) (las : las_data) (code : Z) :
  np.getitem (map f las) (np.equal (las_classification las) code)
  = Ok (map f (class_subset las code)).
Proof.
  induction las as [|p las IH]; simpl.
  - reflexivity.
  - rewrite IH. simpl.
    destruct (Z.eqb (pt_classification p) code); reflexivity.
Qed.

Lemma select_class_eq (las : las_data) (code : Z) :
  select_class las code
  = Ok (map pt_x (class_subset las code),
        map pt_y (class_subset las code),
        map pt_z (class_subset las code)).
Proof.
  unfold select_class, las_x, las_y, las_z.
  rewrite !getitem_equal. reflexivity.
Qed.

Lemma class_subset_count (las : las_data) (code : Z) :
  length (class_subset las code) = count_occ Z.eq_dec (las_classification las) code.
Proof.
  induction las as [|p las IH]; simpl.
  - reflexivity.
  - destruct (Z.eqb_spec (pt_classification p) code) as [E|E];
      destruct (Z.eq_dec (pt_classification p) code) as [E'|E']; try contradiction;
      simpl; rewrite IH; reflexivity.
Qed.

(** C9.  Filtering by classification never raises; the three columns it
    returns are those of exactly the points whose classification is the
    code, in file order; their common length is the number of such points;
    they are empty when no point has the code. *)
Theorem select_class_filters (las : las_data) (code : Z) :
  select_class las code
  = Ok (map pt_x (class_subset las code),
        map pt_y (class_subset las code),
        map pt_z (class_subset las code))
  /\ (forall p, In p (class_subset las code) <-> In p las /\ pt_classification p = code)
  /\ length (map pt_z (class_subset las code))
     = count_occ Z.eq_dec (las_classification las) code
  /\ ((forall p, In p las -> pt_classification p <> code) ->
      select_class las code = Ok ([], [], [])).
Proof.
  split; [apply select_class_eq|].
  split.
  { intros p. unfold class_subset. rewrite filter_In, Z.eqb_eq. reflexivity. }
  split.
  { rewrite length_map. apply class_subset_count. }
  intros Hno. rewrite select_class_eq.
  assert (E : class_subset las code = []).
  { unfold class_subset. induction las as [|p l IH]; simpl; [reflexivity|].
    destruct (Z.eqb_spec (pt_classification p) code) as [E|E].
    - exfalso. apply (Hno p); [left; reflexivity | exact E].
    - apply IH. intros q Hq. apply Hno. right. exact Hq. }
  rewrite E. reflexivity.
Qed.

(** ** NumPy: minimum, maximum and ranges *)

Lemma fold_min_le (rest : list Q) (v : Q) : fold_left Qmin rest v <= v.
Proof.
  revert v. induction rest as [|u rest IH]; intros v; simpl.
  - apply Qle_refl.
  - eapply Qle_trans; [apply IH | apply Q.le_min_l].
Qed.

Lemma fold_min_lower (rest : list Q) (v : Q) :
  Forall (fun u => fold_left Qmin rest v <= u) rest.
Proof.
  revert v. induction rest as [|u rest IH]; intros v; simpl; constructor.
  - eapply Qle_trans; [apply fold_min_le | apply Q.le_min_r].
  - apply IH.
Qed.

Lemma fold_max_ge (rest : list Q) (v : Q) : v <= fold_left Qmax rest v.
Proof.
  revert v. induction rest as [|u rest IH]; intros v; simpl.
  - apply Qle_refl.
  - eapply Qle_trans; [apply Q.le_max_l | apply IH].
Qed.

Lemma fold_max_upper (rest : list Q) (v : Q) :
  Forall (fun u => u <= fold_left Qmax rest v) rest.
Proof.
  revert v. induction rest as [|u rest IH]; intros v; simpl; constructor.
  - eapply Qle_trans; [apply Q.le_max_r | apply fold_max_ge].
  - apply IH.
Qed.

Lemma np_min_least (a : list Q) (m : Q) :
  np.min a = Ok m -> Forall (fun u => m <= u) a.
Proof.
  destruct a as [|v rest]; simpl; intros E; inversion E; subst.
  constructor; [apply fold_min_le | apply fold_min_lower].
Qed.

Lemma np_max_greatest (a : list Q) (m : Q) :
  np.max a = Ok m -> Forall (fun u => u <= m) a.
Proof.
  destruct a as [|v rest]; simpl; intros E; inversion E; subst.
  constructor; [apply fold_max_ge | apply fold_max_upper].
Qed.

Lemma Qmin_cases (v u : Q) : Qmin v u = v \/ Qmin v u = u.
Proof. unfold Qmin, GenericMinMax.gmin. destruct (v ?= u); auto. Qed.

Lemma Qmax_cases (v u : Q) : Qmax v u = v \/ Qmax v u = u.
Proof. unfold Qmax, GenericMinMax.gmax. destruct (v ?= u); auto. Qed.

Lemma np_min_In (a : list Q) (m : Q) : np.min a = Ok m -> In m a.
Proof.
  destruct a as [|v rest]; simpl; intros E; inversion E; subst. clear E.
  revert v. induction rest as [|u rest IH]; intros v; simpl.
  - left. reflexivity.
  - destruct (IH (Qmin v u)) as [E|HIn].
    + destruct (Qmin_cases v u) as [C|C]; [left | right; left];
        (etransitivity; [symmetry; exact C | exact E]).
    + right. right. exact HIn.
Qed.

Lemma np_max_In (a : list Q) (m : Q) : np.max a = Ok m -> In m a.
Proof.
  destruct a as [|v rest]; simpl; intros E; inversion E; subst. clear E.
  revert v. induction rest as [|u rest IH]; intros v; simpl.
  - left. reflexivity.
  - destruct (IH (Qmax v u)) as [E|HIn].
    + destruct (Qmax_cases v u) as [C|C]; [left | right; left];
        (etransitivity; [symmetry; exact C | exact E]).
    + right. right. exact HIn.
Qed.

Lemma np_min_le_max (a : list Q) (lo hi : Q) :
  np.min a = Ok lo -> np.max a = Ok hi -> lo <= hi.
Proof.
  destruct a as [|v rest]; simpl; intros E1 E2; inversion E1; inversion E2; subst.
  eapply Qle_trans; [apply fold_min_le | apply fold_max_ge].
Qed.

Lemma np_min_total (a : list Q) : a <> [] -> exists m, np.min a = Ok m.
Proof.
  destruct a as [|v rest]; [contradiction|]. intros _. eexists. reflexivity.
Qed.

Lemma np_max_total (a : list Q) : a <> [] -> exists m, np.max a = Ok m.
Proof.
  destruct a as [|v rest]; [contradiction|]. intros _. eexists. reflexivity.
Qed.

Lemma arange_eq (start stop step : Q) :
  ~ step == 0 ->
  np.arange start stop step
  = Ok (map (fun i => start + inject_Z (Z.of_nat i) * step)
            (seq 0 (Z.to_nat (Qceiling ((stop - start) / step))))).
Proof.
  intros Hs. unfold np.arange.
  destruct (Qeq_bool step 0) eqn:E; [|reflexivity].
  apply Qeq_bool_iff in E. contradiction.
Qed.

Lemma arange_length (start stop step : Q) (l : list Q) :
  np.arange start stop step = Ok l ->
  length l = Z.to_nat (Qceiling ((stop - start) / step)).
Proof.
  unfold np.arange. destruct (Qeq_bool step 0); intros E; inversion E.
  rewrite length_map, length_seq. reflexivity.
Qed.

Lemma arange_nth (start stop step : Q) (l : list Q) (i : nat) (v : Q) :
  np.arange start stop step = Ok l -> nth_error l i = Some v ->
  v = start + inject_Z (Z.of_nat i) * step
  /\ (Z.of_nat i < Qceiling ((stop - start) / step))%Z.
Proof.
  unfold np.arange. destruct (Qeq_bool step 0); intros E; inversion E; subst. clear E.
  rewrite nth_error_map, nth_error_seq.
  destruct (Nat.ltb_spec i (Z.to_nat (Qceiling ((stop - start) / step)))) as [Hi|Hi];
    simpl; intros E; inversion E.
  split; [reflexivity | lia].
Qed.

Lemma arange_below_stop (start stop step : Q) (l : list Q) (i : nat) (v : Q) :
  0 < step -> np.arange start stop step = Ok l -> nth_error l i = Some v -> v < stop.
Proof.
  intros Hs Ha Hn. destruct (arange_nth _ _ _ _ Ha Hn) as [-> Hi].
  assert (H1 : inject_Z (Z.of_nat i) <= inject_Z (Qceiling ((stop - start) / step) - 1)).
  { rewrite <- Zle_Qle. lia. }
  pose proof (Qceiling_lt ((stop - start) / step)) as H2.
  assert (H3 : inject_Z (Z.of_nat i) * step < (stop - start) / step * step).
  { apply Qmult_lt_r; [exact Hs|]. eapply Qle_lt_trans; eassumption. }
  assert (H4 : (stop - start) / step * step == stop - start).
  { field. intros E. rewrite E in Hs. apply (Qlt_irrefl 0 Hs). }
  rewrite H4 in H3. lra.
Qed.

Lemma arange_half_open (start stop step : Q) (l : list Q) :
  0 < step -> start <= stop -> np.arange start stop step = Ok l ->
  half_open_progression l start stop step.
Proof.
  intros Hs Hle Ha. split.
  - rewrite (arange_length _ _ _ Ha). apply Z2Nat.id.
    change 0%Z with (Qceiling 0). apply Qceiling_resp_le.
    apply Qle_shift_div_l; [exact Hs | lra].
  - intros i v Hn. split.
    + destruct (arange_nth _ _ _ _ Ha Hn) as [-> _]. reflexivity.
    + eapply arange_below_stop; eassumption.
Qed.

Lemma arange_constant_step (start stop step : Q) (l : list Q) :
  np.arange start stop step = Ok l -> constant_step l step.
Proof.
  intros Ha i u v Hu Hv.
  destruct (arange_nth _ _ _ _ Ha Hu) as [-> _].
  destruct (arange_nth _ _ _ _ Ha Hv) as [-> _].
  rewrite Nat2Z.inj_succ. unfold Z.succ. rewrite inject_Z_plus. ring.
Qed.

Lemma progression_sorted (start step : Q) (a n : nat) :
  0 < step ->
  StronglySorted Qlt (map (fun i => start + inject_Z (Z.of_nat i) * step) (seq a n)).
Proof.
  intros Hs. revert a. induction n as [|n IH]; intros a; simpl; constructor.
  - apply IH.
  - apply Forall_forall. intros v Hv. apply in_map_iff in Hv.
    destruct Hv as [j [<- Hj]]. apply in_seq in Hj.
    assert (H : inject_Z (Z.of_nat a) < inject_Z (Z.of_nat j)).
    { rewrite <- Zlt_Qlt. lia. }
    apply (Qmult_lt_r _ _ step Hs) in H. lra.
Qed.

Lemma arange_sorted (start stop step : Q) (l : list Q) :
  0 < step -> np.arange start stop step = Ok l -> StronglySorted Qlt l.
Proof.
  intros Hs. unfold np.arange. destruct (Qeq_bool step 0); intros E; inversion E.
  apply progression_sorted. exact Hs.
Qed.

Lemma positive_nonzero (q : Q) : 0 < q -> ~ q == 0.
Proof. intros H E. rewrite E in H. apply (Qlt_irrefl 0 H). Qed.

(** Without rounding, for non-empty coordinate columns and a positive
    spacing, the x-axis is the progression that starts at [min(x)],
    advances by the spacing and stops before [max(x)], with
    [ceil((max(x) - min(x)) / spacing)] elements, and the y-axis is the
    same with [min(y)] and [max(y)]. *)
Lemma grid_ranges_progression (x y : list Q) (grid_spacing : Q) :
  x <> [] -> y <> [] -> 0 < grid_spacing ->
  exists x_min x_max y_min y_max x_range y_range,
    np.min x = Ok x_min /\ np.max x = Ok x_max
    /\ np.min y = Ok y_min /\ np.max y = Ok y_max
    /\ grid_ranges x y grid_spacing = Ok (x_range, y_range)
    /\ half_open_progression x_range x_min x_max grid_spacing
    /\ half_open_progression y_range y_min y_max grid_spacing.
Proof.
  intros Hx Hy Hs.
  destruct (np_min_total Hx) as [x_min Exmin], (np_max_total Hx) as [x_max Exmax].
  destruct (np_min_total Hy) as [y_min Eymin], (np_max_total Hy) as [y_max Eymax].
  pose proof (arange_eq x_min x_max (positive_nonzero Hs)) as Ex.
  pose proof (arange_eq y_min y_max (positive_nonzero Hs)) as Ey.
  exists x_min, x_max, y_min, y_max.
  eexists. eexists.
  repeat (split; [eassumption|]).
  split.
  { unfold grid_ranges. rewrite Exmin, Exmax. simpl. rewrite Ex. simpl.
    rewrite Eymin, Eymax. simpl. rewrite Ey. simpl. reflexivity. }
  split.
  - apply arange_half_open; [exact Hs | eapply np_min_le_max; eassumption | exact Ex].
  - apply arange_half_open; [exact Hs | eapply np_min_le_max; eassumption | exact Ey].
Qed.

Lemma grid_ranges_progression_witness :
  exists x_min x_max y_min y_max x_range y_range,
    np.min [0; 3; 1] = Ok x_min /\ np.max [0; 3; 1] = Ok x_max
    /\ np.min [2; 2; 5] = Ok y_min /\ np.max [2; 2; 5] = Ok y_max
    /\ grid_ranges [0; 3; 1] [2; 2; 5] 0.5 = Ok (x_range, y_range)
    /\ half_open_progression x_range x_min x_max 0.5
    /\ half_open_progression y_range y_min y_max 0.5.
Proof.
  apply (@grid_ranges_progression [0; 3; 1] [2; 2; 5] 0.5).
  - discriminate.
  - discriminate.
  - reflexivity.
Defined.

(** ** Contour levels *)

Lemma floor_le_ceil (lo hi : Q) : lo <= hi -> np.floor lo <= np.ceil hi.
Proof.
  intros H. unfold np.floor, np.ceil.
  eapply Qle_trans; [apply Qfloor_le|].
  eapply Qle_trans; [exact H | apply Qle_ceiling].
Qed.

Lemma levels_count (f c : Z) :
  Qceiling ((inject_Z c - inject_Z f) / 0.2) = (5 * (c - f))%Z.
Proof.
  assert (E : (inject_Z c - inject_Z f) / 0.2 == inject_Z (5 * (c - f))).
  { rewrite inject_Z_mult. unfold Z.sub. rewrite inject_Z_plus, inject_Z_opp.
    change (inject_Z 5) with 5. field. }
  rewrite E. apply Qceiling_Z.
Qed.

(** Without rounding, the level set of a non-empty elevation column has
    the constant step 0.2: its i-th element is [floor(min(z)) + 0.2 i]. *)
Lemma contour_levels_progression (z : list Q) :
  z <> [] ->
  exists z_min z_max levels,
    np.min z = Ok z_min /\ np.max z = Ok z_max
    /\ contour_levels z = Ok levels
    /\ StronglySorted Qlt levels
    /\ constant_step levels 0.2
    /\ (forall v, hd_error levels = Some v -> v == np.floor z_min)
    /\ half_open_progression levels (np.floor z_min) (np.ceil z_max) 0.2
    /\ Z.of_nat (length levels) = (5 * (Qceiling z_max - Qfloor z_min))%Z.
Proof.
  intros Hz.
  destruct (np_min_total Hz) as [z_min Emin], (np_max_total Hz) as [z_max Emax].
  assert (Hstep : 0 < 0.2) by reflexivity.
  pose proof (arange_eq (np.floor z_min) (np.ceil z_max) (positive_nonzero Hstep)) as Ea.
  assert (El : contour_levels z
               = np.arange (np.floor z_min) (np.ceil z_max) 0.2).
  { unfold contour_levels. rewrite Emin, Emax. reflexivity. }
  pose proof (arange_half_open Hstep
                (floor_le_ceil (np_min_le_max _ Emin Emax)) Ea) as Hp.
  exists z_min, z_max. eexists.
  split; [exact Emin|]. split; [exact Emax|].
  split; [rewrite El; exact Ea|].
  split; [eapply arange_sorted; [exact Hstep | exact Ea]|].
  split; [eapply arange_constant_step; exact Ea|].
  split.
  { intros v Hv. destruct Hp as [_ Hp].
    destruct (Hp 0%nat v) as [E _].
    - destruct (map _ _); [discriminate Hv | exact Hv].
    - rewrite E. simpl. ring. }
  split; [exact Hp|].
  destruct Hp as [Hlen _]. rewrite Hlen. apply levels_count.
Qed.

Lemma contour_levels_progression_witness :
  exists z_min z_max levels,
    np.min [1.5; 0.25; 2.75] = Ok z_min /\ np.max [1.5; 0.25; 2.75] = Ok z_max
    /\ contour_levels [1.5; 0.25; 2.75] = Ok levels
    /\ StronglySorted Qlt levels
    /\ constant_step levels 0.2
    /\ (forall v, hd_error levels = Some v -> v == np.floor z_min)
    /\ half_open_progression levels (np.floor z_min) (np.ceil z_max) 0.2
    /\ Z.of_nat (length levels) = (5 * (Qceiling z_max - Qfloor z_min))%Z.
Proof.
  apply (@contour_levels_progression [1.5; 0.25; 2.75]). discriminate.
Defined.

Example contour_levels_run :
  option_map (map Qred)
    (match contour_levels [1.5; 0.25; 0.75] with Ok l => Some l | Raise _ => None end)
  = Some [0; 1#5; 2#5; 3#5; 4#5; 1; 6#5; 7#5; 8#5; 9#5].
Proof. reflexivity. Qed.






(** ** The colour dictionary *)

Lemma getitem_setitem_same {V : Type} (d : dict.t V) (k : Z) (v : V) :
  dict.getitem (dict.setitem d k v) k = Ok v.
Proof.
  induction d as [|[k' v'] d IH]; simpl.
  - rewrite Z.eqb_refl. reflexivity.
  - destruct (Z.eqb k' k) eqn:E; simpl.
    + rewrite Z.eqb_refl. reflexivity.
    + rewrite E. exact IH.
Qed.

Lemma getitem_setitem_other {V : Type} (d : dict.t V) (k k' : Z) (v : V) :
  k <> k' -> dict.getitem (dict.setitem d k v) k' = dict.getitem d k'.
Proof.
  intros N. induction d as [|[k0 v0] d IH]; simpl.
  - destruct (Z.eqb_spec k k'); [contradiction | reflexivity].
  - destruct (Z.eqb_spec k0 k) as [->|N0]; simpl.
    + destruct (Z.eqb_spec k k'); [contradiction | reflexivity].
    + destruct (Z.eqb_spec k0 k'); [reflexivity | exact IH].
Qed.

Section Colours.

Variable color_picker : Z -> string -> string -> string.

Local Abbreviation step := (pick_color color_picker).

Lemma step_sets (d : dict.t (string * string)) (c : Z) :
  exists style, dict.getitem (step d c) c = Ok style.
Proof.
  unfold pick_color.
  destruct (dict.get default_classification_styles c ("Unknown", "yellow")%string).
  eexists. apply getitem_setitem_same.
Qed.

Lemma step_keeps (d : dict.t (string * string)) (k c : Z) :
  (exists style, dict.getitem d c = Ok style) ->
  exists style, dict.getitem (step d k) c = Ok style.
Proof.
  intros H. destruct (Z.eq_dec k c) as [->|N]; [apply step_sets|].
  unfold pick_color.
  destruct (dict.get default_classification_styles k ("Unknown", "yellow")%string).
  rewrite getitem_setitem_other; assumption.
Qed.

Lemma fold_keeps (classes : list Z) (d : dict.t (string * string)) (c : Z) :
  (exists style, dict.getitem d c = Ok style) ->
  exists style, dict.getitem (fold_left step classes d) c = Ok style.
Proof.
  revert d. induction classes as [|k classes IH]; intros d H; simpl.
  - exact H.
  - apply IH. apply step_keeps. exact H.
Qed.

Lemma customize_colors_getitem (selected_classes : list Z) (c : Z) :
  In c selected_classes ->
  exists style,
    dict.getitem (customize_colors color_picker selected_classes) c = Ok style.
Proof.
  unfold customize_colors.
  generalize (@nil (Z * (string * string))) as d.
  induction selected_classes as [|k classes IH]; intros d HIn; simpl.
  - destruct HIn.
  - destruct HIn as [->|HIn].
    + apply fold_keeps. apply step_sets.
    + apply IH. exact HIn.
Qed.

End Colours.

(** ** The loop *)

Section Loop.

Context {qhull : Qhull} {mpl : Matplotlib}.

Variable las : las_data.
Variable selected_classes : list Z.
Variable custom_colors : dict.t (string * string).
Variable line_width : Q.
Variable grid_spacing : Q.

Local Abbreviation body :=
  (class_body las selected_classes custom_colors line_width grid_spacing).
Local Abbreviation loop :=
  (for_classes las selected_classes custom_colors line_width grid_spacing).

Lemma class_body_small (i : nat) (c : Z) (s : Axes * st.progress_bar)
    (style : string * string) :
  dict.getitem custom_colors c = Ok style ->
  (length (class_subset las c) < 100)%nat ->
  body i c s = Ok s.
Proof.
  intros Hc Hn. unfold class_body. destruct s as [ax bar].
  rewrite Hc. destruct style as [classification color]. simpl.
  rewrite select_class_eq. simpl. rewrite length_map.
  destruct (Nat.ltb_spec (length (class_subset las c)) 100); [reflexivity | lia].
Qed.

Lemma for_classes_small (i : nat) (classes : list Z) (s : Axes * st.progress_bar) :
  (forall c, In c classes -> exists style, dict.getitem custom_colors c = Ok style) ->
  Forall (fun c => (length (class_subset las c) < 100)%nat) classes ->
  loop i classes s = Ok s.
Proof.
  revert i. induction classes as [|c classes IH]; intros i Hd Hs; simpl.
  - reflexivity.
  - inversion Hs as [|? ? Hc Hrest]; subst.
    destruct (Hd c (or_introl eq_refl)) as [style Hstyle].
    simpl.
    rewrite class_body_small with (style := style); [|exact Hstyle|exact Hc].
    simpl. apply IH; [|exact Hrest].
    intros c' H'. apply Hd. right. exact H'.
Qed.

Lemma for_classes_app (i : nat) (before after : list Z) (s : Axes * st.progress_bar) :
  loop i (before ++ after) s
  = bind (loop i before s) (fun s' => loop (i + length before) after s').
Proof.
  revert i s. induction before as [|c before IH]; intros i s; simpl.
  - rewrite Nat.add_0_r. reflexivity.
  - destruct (body i c s) as [s'|e]; simpl; [|reflexivity].
    rewrite IH. rewrite Nat.add_succ_r. reflexivity.
Qed.

Lemma generate_eq :
  generate las selected_classes custom_colors line_width grid_spacing
  = bind (loop 0%nat selected_classes (subplots, [0]))
      (fun s => Ok {| image := axis_off (fst s); reported := snd s |}).
Proof.
  unfold generate.
  change (st.progress 0) with (@Ok st.progress_bar [0]). cbn [bind].
  destruct (for_classes _ _ _ _ _ _ _ _) as [[ax bar]|e]; reflexivity.
Qed.

End Loop.

(** C10.  With no class selected the loop returns at once with the axes
    and the bar untouched, and generation completes: the image is the
    black background with its axes switched off and the bar still shows
    the initial 0.  The division [(i + 1) / len(selected_classes)], which
    would raise for an empty selection, is never reached. *)
Theorem generate_without_classes (qhull : Qhull) (mpl : Matplotlib) (las : las_data)
    (custom_colors : dict.t (string * string)) (line_width grid_spacing : Q) :
  (forall i s, for_classes las [] custom_colors line_width grid_spacing i [] s = Ok s)
  /\ generate las [] custom_colors line_width grid_spacing
     = Ok {| image := axis_off subplots; reported := [0] |}
  /\ (forall color_picker,
        run color_picker las [] line_width grid_spacing
        = Ok {| image := axis_off subplots; reported := [0] |})
  /\ (forall i, truediv (Z.of_nat i + 1) (Z.of_nat (length (@nil Z)))
                = Raise ZeroDivisionError).
Proof.
  repeat split; reflexivity.
Qed.

(** C1 at a failing input.  One class is selected and it has 99 points:
    the class is skipped by the first [continue], which also skips the
    progress update, so the bar ends at its initial 0 and never shows
    1. *)
Theorem skipped_class_reports_no_progress (qhull : Qhull) (mpl : Matplotlib)
    (color_picker : Z -> string -> string -> string) (line_width grid_spacing : Q) :
  run color_picker (points_on_a_line 99 2) [2%Z] line_width grid_spacing
  = Ok {| image := axis_off subplots; reported := [0] |}.
Proof.
  unfold run. rewrite generate_eq, for_classes_small.
  - reflexivity.
  - intros c Hc. apply customize_colors_getitem. exact Hc.
  - constructor; [|constructor]. apply Nat.ltb_lt. vm_compute. reflexivity.
Qed.

(** A drawn class followed by a skipped one: the bar stops at 1/2.  With
    the two classes in the other order it shows 1 at the end. *)
Example progress_stops_short :
  option_map (fun out => map Qred (reported out))
    (match run (qhull := lattice_triangles) (mpl := recording_axes) default_picker
             (points_on_a_lattice 100 2 ++ points_on_a_line 50 3) [2%Z; 3%Z] 0.6 3
     with Ok out => Some out | Raise _ => None end)
  = Some [0; 1 # 2]
  /\ option_map (fun out => map Qred (reported out))
       (match run (qhull := lattice_triangles) (mpl := recording_axes) default_picker
                (points_on_a_lattice 100 2 ++ points_on_a_line 50 3) [3%Z; 2%Z] 0.6 3
        with Ok out => Some out | Raise _ => None end)
     = Some [0; 1].
Proof. split; vm_compute; reflexivity. Qed.

(** ** Gridding a class *)

Lemma grid_ranges_zero_spacing (x y : list Q) (grid_spacing : Q) :
  x <> [] -> grid_spacing == 0 -> grid_ranges x y grid_spacing = Raise ArangeError.
Proof.
  intros Hx H0.
  destruct (np_min_total Hx) as [x_min Emin], (np_max_total Hx) as [x_max Emax].
  unfold grid_ranges. rewrite Emin, Emax. simpl. unfold np.arange.
  apply Qeq_bool_iff in H0. rewrite H0. reflexivity.
Qed.

Lemma grid_ranges_total (x y : list Q) (grid_spacing : Q) :
  x <> [] -> y <> [] -> ~ grid_spacing == 0 ->
  exists x_range y_range, grid_ranges x y grid_spacing = Ok (x_range, y_range).
Proof.
  intros Hx Hy Hs.
  destruct (np_min_total Hx) as [x_min Exmin], (np_max_total Hx) as [x_max Exmax].
  destruct (np_min_total Hy) as [y_min Eymin], (np_max_total Hy) as [y_max Eymax].
  unfold grid_ranges. rewrite Exmin, Exmax. simpl.
  rewrite (arange_eq x_min x_max Hs). simpl.
  rewrite Eymin, Eymax. simpl.
  rewrite (arange_eq y_min y_max Hs). simpl.
  eexists. eexists. reflexivity.
Qed.

Lemma long_column_nonempty {A : Type} (f : point -> A) (l : list point) :
  (100 <= length l)%nat -> map f l <> [].
Proof. destruct l; simpl; [lia | discriminate]. Qed.

Section Gridding.

Context {qhull : Qhull} {mpl : Matplotlib}.

Variable las : las_data.
Variable selected_classes : list Z.
Variable custom_colors : dict.t (string * string).
Variable line_width : Q.
Variable grid_spacing : Q.

Lemma class_body_zero_spacing (i : nat) (c : Z) (s : Axes * st.progress_bar)
    (style : string * string) :
  dict.getitem custom_colors c = Ok style ->
  (100 <= length (class_subset las c))%nat ->
  grid_spacing == 0 ->
  class_body las selected_classes custom_colors line_width grid_spacing i c s
  = Raise ArangeError.
Proof.
  intros Hc Hn H0. unfold class_body. destruct s as [ax bar].
  rewrite Hc. destruct style as [classification color]. simpl.
  rewrite select_class_eq. simpl. rewrite length_map.
  destruct (Nat.ltb_spec (length (class_subset las c)) 100); [lia|].
  rewrite grid_ranges_zero_spacing;
    [reflexivity | apply long_column_nonempty; exact Hn | exact H0].
Qed.

End Gridding.

(** ** Collinear samples *)

Lemma pt_eqb_same_place (a b : pt) :
  scipy.pt_eqb a b = true <-> hull.same_place a b.
Proof.
  unfold scipy.pt_eqb, hull.same_place.
  rewrite andb_true_iff, !Qeq_bool_iff. reflexivity.
Qed.

Lemma cross_compat (o o' a a' b b' : pt) :
  hull.same_place o o' -> hull.same_place a a' -> hull.same_place b b' ->
  scipy.cross o a b == scipy.cross o' a' b'.
Proof.
  intros [Ho1 Ho2] [Ha1 Ha2] [Hb1 Hb2]. unfold scipy.cross.
  rewrite Ho1, Ho2, Ha1, Ha2, Hb1, Hb2. reflexivity.
Qed.

Lemma cross_on_line (p0 p1 a b c : pt) :
  ~ hull.same_place p1 p0 ->
  scipy.cross p0 p1 a == 0 -> scipy.cross p0 p1 b == 0 -> scipy.cross p0 p1 c == 0 ->
  scipy.cross a b c == 0.
Proof.
  intros Hd Ha Hb Hc.
  assert (Ex : (fst p1 - fst p0) * scipy.cross a b c
               == (fst b - fst a) * (scipy.cross p0 p1 c - scipy.cross p0 p1 a)
                  - (fst c - fst a) * (scipy.cross p0 p1 b - scipy.cross p0 p1 a)).
  { unfold scipy.cross. ring. }
  assert (Ey : (snd p1 - snd p0) * scipy.cross a b c
               == (snd b - snd a) * (scipy.cross p0 p1 c - scipy.cross p0 p1 a)
                  - (snd c - snd a) * (scipy.cross p0 p1 b - scipy.cross p0 p1 a)).
  { unfold scipy.cross. ring. }
  rewrite Ha, Hb, Hc in Ex, Ey.
  assert (Ex0 : (fst p1 - fst p0) * scipy.cross a b c == 0) by (rewrite Ex; ring).
  assert (Ey0 : (snd p1 - snd p0) * scipy.cross a b c == 0) by (rewrite Ey; ring).
  apply Qmult_integral in Ex0, Ey0.
  destruct Ex0 as [Ex0|Ex0]; [|exact Ex0].
  destruct Ey0 as [Ey0|Ey0]; [|exact Ey0].
  exfalso. apply Hd. split; lra.
Qed.

Lemma collinearb_true (points : list pt) :
  scipy.collinearb points = true <-> hull.collinear points.
Proof.
  split.
  - destruct points as [|p0 rest]; simpl.
    { intros _ a b c []. }
    destruct (find (fun p => negb (scipy.pt_eqb p p0)) rest) as [p1|] eqn:Ef.
    + intros Hall. apply find_some in Ef. destruct Ef as [H1 Hne].
      assert (Hline : forall p, In p (p0 :: rest) -> scipy.cross p0 p1 p == 0).
      { intros p [<-|Hp].
        - unfold scipy.cross. ring.
        - apply Qeq_bool_iff. rewrite forallb_forall in Hall. apply Hall. exact Hp. }
      assert (Hd : ~ hull.same_place p1 p0).
      { intros Hs. apply pt_eqb_same_place in Hs. rewrite Hs in Hne. discriminate Hne. }
      intros a b c Ha Hb Hc.
      apply (cross_on_line Hd); apply Hline; assumption.
    + intros _.
      assert (Hsame : forall p, In p (p0 :: rest) -> hull.same_place p p0).
      { intros p [<-|Hp].
        - split; reflexivity.
        - apply pt_eqb_same_place.
          pose proof (find_none _ _ Ef p Hp) as Hn. simpl in Hn.
          destruct (scipy.pt_eqb p p0); [reflexivity | discriminate Hn]. }
      intros a b c Ha Hb Hc.
      rewrite (cross_compat (Hsame a Ha) (Hsame b Hb) (Hsame c Hc)).
      unfold scipy.cross. ring.
  - intros Hcol. destruct points as [|p0 rest]; simpl; [reflexivity|].
    destruct (find (fun p => negb (scipy.pt_eqb p p0)) rest) as [p1|] eqn:Ef;
      [|reflexivity].
    apply find_some in Ef. destruct Ef as [H1 _].
    apply forallb_forall. intros p Hp. apply Qeq_bool_iff.
    apply Hcol; [left; reflexivity | right; exact H1 | right; exact Hp].
Qed.

Lemma combine_columns {A B : Type} (f : point -> A) (g : point -> B) (l : list point) :
  combine (map f l) (map g l) = map (fun p => (f p, g p)) l.
Proof.
  induction l as [|p l IH]; simpl; [reflexivity | rewrite IH; reflexivity].
Qed.

Section Degenerate.

Context {qhull : Qhull} {mpl : Matplotlib}.

Variable las : las_data.
Variable selected_classes : list Z.
Variable custom_colors : dict.t (string * string).
Variable line_width : Q.
Variable grid_spacing : Q.

Lemma class_body_collinear (i : nat) (c : Z) (s : Axes * st.progress_bar)
    (style : string * string) :
  dict.getitem custom_colors c = Ok style ->
  (100 <= length (class_subset las c))%nat ->
  ~ grid_spacing == 0 ->
  hull.collinear (class_xy las c) ->
  class_body las selected_classes custom_colors line_width grid_spacing i c s
  = Raise QhullError.
Proof.
  intros Hc Hn Hs Hcol. unfold class_body. destruct s as [ax bar].
  rewrite Hc. destruct style as [classification color]. simpl.
  rewrite select_class_eq. simpl. rewrite length_map.
  destruct (Nat.ltb_spec (length (class_subset las c)) 100); [lia|].
  destruct (@grid_ranges_total (map pt_x (class_subset las c))
              (map pt_y (class_subset las c)) grid_spacing)
    as [x_range [y_range Eg]];
    [apply long_column_nonempty; exact Hn
    |apply long_column_nonempty; exact Hn | exact Hs |].
  rewrite Eg. simpl. unfold scipy.griddata.
  rewrite !length_map, !Nat.eqb_refl. simpl.
  rewrite combine_columns.
  apply collinearb_true in Hcol. unfold class_xy in Hcol. rewrite Hcol.
  reflexivity.
Qed.

End Degenerate.

(** The third kind of degenerate class has no [continue] of its own.
    When the classes before it were processed without error, a class with
    at least 100 points that are all on one line makes [griddata] raise,
    and nothing catches it: the request ends with that error, the classes
    after it are not processed and no image is produced. *)
Lemma degenerate_class_aborts (qhull : Qhull) (mpl : Matplotlib) (las : las_data)
    (custom_colors : dict.t (string * string)) (line_width grid_spacing : Q)
    (before after : list Z) (c : Z) (s : Axes * st.progress_bar)
    (style : string * string) :
  for_classes las (before ++ c :: after) custom_colors line_width grid_spacing
    0 before (subplots, [0]) = Ok s ->
  dict.getitem custom_colors c = Ok style ->
  (100 <= length (class_subset las c))%nat ->
  hull.collinear (class_xy las c) ->
  ~ grid_spacing == 0 ->
  generate las (before ++ c :: after) custom_colors line_width grid_spacing
  = Raise QhullError.
Proof.
  intros Hbefore Hstyle Hn Hcol Hs.
  rewrite generate_eq, for_classes_app, Hbefore. cbn [bind for_classes].
  rewrite class_body_collinear with (style := style); try assumption.
  reflexivity.
Qed.

Lemma degenerate_class_aborts_witness :
  generate (qhull := one_triangle) (mpl := recording_axes)
    (points_on_a_line 99 2 ++ points_on_a_line 100 5)
    ([2%Z] ++ 5%Z :: [2%Z])
    (customize_colors default_picker [2%Z; 5%Z]) 1 1
  = Raise QhullError.
Proof.
  apply (@degenerate_class_aborts one_triangle recording_axes
           (points_on_a_line 99 2 ++ points_on_a_line 100 5)
           (customize_colors default_picker [2%Z; 5%Z]) 1 1
           [2%Z] [2%Z] 5%Z (subplots, [0]) ("High Vegetation", "darkgreen")%string).
  - vm_compute. reflexivity.
  - reflexivity.
  - apply Nat.leb_le. vm_compute. reflexivity.
  - apply collinearb_true. vm_compute. reflexivity.
  - intros E. discriminate E.
Defined.

(** C3 at a failing input.  The one selected class has 100 points, all on
    one line.  A class with fewer than 100 points (line 86) or with a
    fully masked field (line 95) is skipped; this one is not: the request
    ends with Qhull's error and no image. *)
Theorem collinear_class_aborts_request :
  (100 <= length (class_subset (points_on_a_line 100 5) 5))%nat
  /\ hull.collinear (class_xy (points_on_a_line 100 5) 5)
  /\ run (qhull := one_triangle) (mpl := recording_axes) default_picker
       (points_on_a_line 100 5) [5%Z] 1 1
     = Raise QhullError.
Proof.
  split; [apply Nat.leb_le; vm_compute; reflexivity|].
  split; [apply collinearb_true; vm_compute; reflexivity|].
  vm_compute. reflexivity.
Qed.

(** ** Convex combinations *)

Lemma add_at_length (i : nat) (a : Q) (w : list Q) :
  length (hull.add_at i a w) = length w.
Proof.
  revert i. induction w as [|x w IH]; intros [|i]; simpl; try reflexivity.
  rewrite IH. reflexivity.
Qed.

Lemma add_at_nonneg (i : nat) (a : Q) (w : list Q) :
  0 <= a -> Forall (fun t => 0 <= t) w -> Forall (fun t => 0 <= t) (hull.add_at i a w).
Proof.
  intros Ha. revert i. induction w as [|x w IH]; intros [|i] Hw; simpl;
    try constructor; inversion Hw; subst; try assumption.
  - lra.
  - apply IH. assumption.
Qed.

Lemma add_at_total (i : nat) (a : Q) (w : list Q) :
  (i < length w)%nat -> hull.total (hull.add_at i a w) == hull.total w + a.
Proof.
  revert i. induction w as [|x w IH]; intros [|i] Hi; simpl in *; try lia.
  - ring.
  - rewrite IH by lia. ring.
Qed.

Lemma add_at_wsum (i : nat) (a x : Q) (w v : list Q) :
  length w = length v -> nth_error v i = Some x ->
  hull.wsum (hull.add_at i a w) v == hull.wsum w v + a * x.
Proof.
  revert i v. induction w as [|t w IH]; intros i [|u v] Hl Hn; simpl in *;
    try discriminate; try (destruct i; discriminate).
  destruct i as [|i]; simpl in *.
  - inversion Hn; subst. ring.
  - rewrite (IH i v) by (try lia; assumption). ring.
Qed.

Lemma zeros_total (n : nat) : hull.total (repeat 0 n) == 0.
Proof. induction n as [|n IH]; simpl; [reflexivity | rewrite IH; ring]. Qed.

Lemma zeros_wsum (n : nat) (v : list Q) : hull.wsum (repeat 0 n) v == 0.
Proof.
  revert v. induction n as [|n IH]; intros [|u v]; simpl; try reflexivity.
  rewrite IH. ring.
Qed.

Lemma zeros_nonneg (n : nat) : Forall (fun t => 0 <= t) (repeat 0 n).
Proof. induction n; simpl; constructor; [apply Qle_refl | assumption]. Qed.

Lemma nth_error_length {A : Type} (l : list A) (i : nat) (a : A) :
  nth_error l i = Some a -> (i < length l)%nat.
Proof. intros H. apply nth_error_Some. rewrite H. discriminate. Qed.

Lemma nth_error_fst (points : list pt) (i : nat) (a : pt) :
  nth_error points i = Some a -> nth_error (map fst points) i = Some (fst a).
Proof. intros H. rewrite nth_error_map. unfold pt in H. rewrite H. reflexivity. Qed.

Lemma nth_error_snd (points : list pt) (i : nat) (a : pt) :
  nth_error points i = Some a -> nth_error (map snd points) i = Some (snd a).
Proof. intros H. rewrite nth_error_map. unfold pt in H. rewrite H. reflexivity. Qed.

Lemma convex_combination_in_hull (points : list pt) (i j k : nat) (a b c q : pt)
    (l1 l2 l3 : Q) :
  nth_error points i = Some a -> nth_error points j = Some b ->
  nth_error points k = Some c ->
  0 <= l1 -> 0 <= l2 -> 0 <= l3 -> l1 + l2 + l3 == 1 ->
  fst q == l1 * fst a + l2 * fst b + l3 * fst c ->
  snd q == l1 * snd a + l2 * snd b + l3 * snd c ->
  hull.in_hull points q.
Proof.
  intros Hi Hj Hk H1 H2 H3 Hsum Hx Hy.
  pose (n := length points).
  exists (hull.add_at i l1 (hull.add_at j l2 (hull.add_at k l3 (repeat 0 n)))).
  assert (Ln : length (repeat (0 : Q) n) = n) by apply repeat_length.
  pose proof (nth_error_length _ _ Hi) as Li.
  pose proof (nth_error_length _ _ Hj) as Lj.
  pose proof (nth_error_length _ _ Hk) as Lk.
  split; [rewrite !add_at_length; exact Ln|].
  split; [repeat apply add_at_nonneg; try assumption; apply zeros_nonneg|].
  split.
  { rewrite !add_at_total, zeros_total; rewrite ?add_at_length, ?Ln; try assumption.
    rewrite <- Hsum. ring. }
  assert (Lw : forall u v w, length (hull.add_at u v w) = length w)
    by (intros; apply add_at_length).
  split.
  - rewrite (add_at_wsum i l1 (x := fst a));
      [|rewrite !Lw, Ln, length_map; reflexivity | apply nth_error_fst; exact Hi].
    rewrite (add_at_wsum j l2 (x := fst b));
      [|rewrite !Lw, Ln, length_map; reflexivity | apply nth_error_fst; exact Hj].
    rewrite (add_at_wsum k l3 (x := fst c));
      [|rewrite Ln, length_map; reflexivity | apply nth_error_fst; exact Hk].
    rewrite zeros_wsum, Hx. ring.
  - rewrite (add_at_wsum i l1 (x := snd a));
      [|rewrite !Lw, Ln, length_map; reflexivity | apply nth_error_snd; exact Hi].
    rewrite (add_at_wsum j l2 (x := snd b));
      [|rewrite !Lw, Ln, length_map; reflexivity | apply nth_error_snd; exact Hj].
    rewrite (add_at_wsum k l3 (x := snd c));
      [|rewrite Ln, length_map; reflexivity | apply nth_error_snd; exact Hk].
    rewrite zeros_wsum, Hy. ring.
Qed.

(** ** Barycentric interpolation *)

Lemma barycentric_spec (a b c q : pt) (l1 l2 l3 : Q) :
  scipy.barycentric a b c q = Some (l1, l2, l3) ->
  ~ scipy.cross a b c == 0
  /\ l1 == scipy.cross q b c / scipy.cross a b c
  /\ l2 == scipy.cross a q c / scipy.cross a b c
  /\ l3 == scipy.cross a b q / scipy.cross a b c.
Proof.
  unfold scipy.barycentric.
  destruct (Qeq_bool (scipy.cross a b c) 0) eqn:E; intros H; inversion H; subst.
  apply Qeq_bool_neq in E. repeat split; try reflexivity. exact E.
Qed.

Lemma barycentric_combination (a b c q : pt) (l1 l2 l3 : Q) :
  scipy.barycentric a b c q = Some (l1, l2, l3) ->
  l1 + l2 + l3 == 1
  /\ fst q == l1 * fst a + l2 * fst b + l3 * fst c
  /\ snd q == l1 * snd a + l2 * snd b + l3 * snd c.
Proof.
  intros H. apply barycentric_spec in H. destruct H as [Hd [E1 [E2 E3]]].
  rewrite E1, E2, E3. unfold scipy.cross in *.
  repeat split; field; exact Hd.
Qed.

Lemma locate_spec (points : list pt) (i j k : nat) (q : pt) (l1 l2 l3 : Q) :
  scipy.locate points (i, j, k) q = Some (l1, l2, l3) ->
  exists a b c,
    nth_error points i = Some a /\ nth_error points j = Some b
    /\ nth_error points k = Some c
    /\ scipy.barycentric a b c q = Some (l1, l2, l3)
    /\ 0 <= l1 /\ 0 <= l2 /\ 0 <= l3.
Proof.
  unfold scipy.locate.
  destruct (nth_error points i) as [a|]; [|discriminate].
  destruct (nth_error points j) as [b|]; [|discriminate].
  destruct (nth_error points k) as [c|]; [|discriminate].
  destruct (scipy.barycentric a b c q) as [[[m1 m2] m3]|] eqn:Eb; [|discriminate].
  destruct (Qle_bool 0 m1) eqn:B1; [|discriminate].
  destruct (Qle_bool 0 m2) eqn:B2; [|discriminate].
  destruct (Qle_bool 0 m3) eqn:B3; [|discriminate].
  simpl. intros H. inversion H; subst.
  exists a, b, c. rewrite <- !Qle_bool_iff. repeat split; assumption.
Qed.

Lemma locate_in_hull (points : list pt) (s : simplex) (q : pt) (l : Q * Q * Q) :
  scipy.locate points s q = Some l -> hull.in_hull points q.
Proof.
  destruct s as [[i j] k], l as [[l1 l2] l3]. intros H.
  apply locate_spec in H.
  destruct H as [a [b [c [Hi [Hj [Hk [Hb [H1 [H2 H3]]]]]]]]].
  apply barycentric_combination in Hb. destruct Hb as [Hs [Hx Hy]].
  apply (@convex_combination_in_hull points i j k a b c q l1 l2 l3); assumption.
Qed.

Lemma find_simplex_some (points : list pt) (tri : list simplex) (q : pt)
    (s : simplex) (l : Q * Q * Q) :
  scipy.find_simplex points tri q = Some (s, l) ->
  In s tri /\ scipy.locate points s q = Some l.
Proof.
  induction tri as [|t tri IH]; simpl; [discriminate|].
  destruct (scipy.locate points t q) as [m|] eqn:E.
  - intros H. inversion H; subst. split; [left; reflexivity | exact E].
  - intros H. destruct (IH H) as [HIn Hl]. split; [right; exact HIn | exact Hl].
Qed.

Lemma find_simplex_exists (points : list pt) (tri : list simplex) (q : pt) (s : simplex) :
  In s tri -> scipy.locate points s q <> None ->
  exists found, scipy.find_simplex points tri q = Some found.
Proof.
  induction tri as [|t tri IH]; simpl; [intros []|].
  intros HIn Hl. destruct (scipy.locate points t q) as [m|] eqn:E.
  - eexists. reflexivity.
  - destruct HIn as [->|HIn]; [contradiction|]. apply IH; assumption.
Qed.

Lemma linear_some_in_hull (points : list pt) (values : list Q) (tri : list simplex)
    (q : pt) (v : Q) :
  scipy.linear points values tri q = Some v -> hull.in_hull points q.
Proof.
  unfold scipy.linear.
  destruct (scipy.find_simplex points tri q) as [[s l]|] eqn:E; [|discriminate].
  intros _. apply find_simplex_some in E. destruct E as [_ E].
  eapply locate_in_hull. exact E.
Qed.

Lemma linear_defined (points : list pt) (values : list Q) (tri : list simplex) (q : pt) :
  hull.covers points tri -> length values = length points ->
  hull.in_hull points q ->
  exists v, scipy.linear points values tri q = Some v.
Proof.
  intros Hc Hl Hq. destruct (Hc q Hq) as [s [Hs Hloc]].
  destruct (@find_simplex_exists points tri q s Hs Hloc) as [[[[i j] k] [[l1 l2] l3]] Ef].
  unfold scipy.linear. rewrite Ef.
  apply find_simplex_some in Ef. destruct Ef as [_ Ef].
  apply locate_spec in Ef. destruct Ef as [a [b [c [Hi [Hj [Hk _]]]]]].
  apply nth_error_length in Hi, Hj, Hk. rewrite <- Hl in Hi, Hj, Hk.
  destruct (nth_error values i) as [zi|] eqn:Ei;
    [|apply nth_error_None in Ei; lia].
  destruct (nth_error values j) as [zj|] eqn:Ej;
    [|apply nth_error_None in Ej; lia].
  destruct (nth_error values k) as [zk|] eqn:Ek;
    [|apply nth_error_None in Ek; lia].
  eexists. reflexivity.
Qed.


(** ** The interpolated field *)

Lemma map2_nth {A B C : Type} (f : A -> B -> C) (l1 : list A) (l2 : list B) (i : nat) :
  nth_error (scipy.map2 f l1 l2) i
  = match nth_error l1 i, nth_error l2 i with
    | Some a, Some b => Some (f a b)
    | _, _ => None
    end.
Proof.
  unfold scipy.map2. revert l2 i.
  induction l1 as [|a l1 IH]; intros [|b l2] [|i]; simpl; try reflexivity.
  - destruct (nth_error l1 i); reflexivity.
  - apply IH.
Qed.

Lemma griddata_ok {qhull : Qhull} (x y z : list Q)
    (xi : list (list Q) * list (list Q)) (grid_z : list (list (option Q))) :
  scipy.griddata (x, y) z xi = Ok grid_z ->
  length z = length (combine x y)
  /\ scipy.collinearb (combine x y) = false
  /\ grid_z = scipy.map2
       (scipy.map2 (fun gx gy =>
          scipy.linear (combine x y) z (delaunay (combine x y)) (gx, gy)))
       (fst xi) (snd xi).
Proof.
  unfold scipy.griddata.
  destruct (Nat.eqb (length x) (length y)) eqn:E1; simpl; [|discriminate].
  destruct (Nat.eqb (length x) (length z)) eqn:E2; simpl; [|discriminate].
  destruct (scipy.collinearb (combine x y)) eqn:E3; [discriminate|].
  intros H. inversion H. apply Nat.eqb_eq in E1, E2.
  rewrite length_combine. repeat split. lia.
Qed.

Lemma griddata_cell {qhull : Qhull} (x y z x_range y_range : list Q)
    (grid_z : list (list (option Q))) (r c : nat) (xv yv : Q) :
  scipy.griddata (x, y) z (np.meshgrid x_range y_range) = Ok grid_z ->
  nth_error y_range r = Some yv -> nth_error x_range c = Some xv ->
  np.data_at grid_z r c
  = Some (scipy.linear (combine x y) z (delaunay (combine x y)) (xv, yv)).
Proof.
  intros Hg Hr Hc. apply griddata_ok in Hg. destruct Hg as [_ [_ ->]].
  unfold np.data_at, np.meshgrid. simpl.
  rewrite map2_nth, !nth_error_map, Hr. simpl.
  rewrite map2_nth, nth_error_map, Hc. simpl. reflexivity.
Qed.

Lemma mask_at_masked_invalid (a : list (list (option Q))) (r c : nat) :
  np.mask_at (np.masked_invalid a) r c = option_map np.isnan (np.data_at a r c).
Proof.
  unfold np.mask_at, np.masked_invalid, np.data_at. simpl.
  rewrite nth_error_map. destruct (nth_error a r) as [row|]; simpl; [|reflexivity].
  apply nth_error_map.
Qed.



(** And a grid point located in a triangle lies in it. *)
Lemma located_in_triangle (points : list pt) (s : simplex) (q : pt) (l : Q * Q * Q) :
  scipy.locate points s q = Some l -> hull.in_triangle points s q.
Proof.
  destruct s as [[i j] k], l as [[l1 l2] l3]. intros H.
  apply locate_spec in H.
  destruct H as [a [b [c [Hi [Hj [Hk [Hb [H1 [H2 H3]]]]]]]]].
  exists a, b, c. simpl. repeat split; try assumption.
  - apply barycentric_spec in Hb. destruct Hb as [Hd _]. exact Hd.
  - apply barycentric_combination in Hb. destruct Hb as [Hs [Hx Hy]].
    apply (@convex_combination_in_hull [a; b; c] 0 1 2 a b c q l1 l2 l3);
      try assumption; reflexivity.
Qed.




(** ** A single triangle *)

Lemma triangle_covers (a b c : pt) :
  ~ scipy.cross a b c == 0 -> hull.covers [a; b; c] [(0%nat, 1%nat, 2%nat)].
Proof.
  intros Hd q [w [Hlen [Hnn [Htot [Hx Hy]]]]].
  destruct w as [|w0 [|w1 [|w2 [|]]]]; try discriminate Hlen.
  simpl in Htot, Hx, Hy.
  inversion Hnn as [|? ? H0 Hnn1]; subst.
  inversion Hnn1 as [|? ? H1 Hnn2]; subst.
  inversion Hnn2 as [|? ? H2 _]; subst.
  assert (E0 : w0 == 1 - w1 - w2) by lra.
  assert (E1 : scipy.cross q b c / scipy.cross a b c == w0).
  { unfold scipy.cross in *. rewrite Hx, Hy, E0. field. exact Hd. }
  assert (E2 : scipy.cross a q c / scipy.cross a b c == w1).
  { unfold scipy.cross in *. rewrite Hx, Hy, E0. field. exact Hd. }
  assert (E3 : scipy.cross a b q / scipy.cross a b c == w2).
  { unfold scipy.cross in *. rewrite Hx, Hy, E0. field. exact Hd. }
  exists (0%nat, 1%nat, 2%nat). split; [left; reflexivity|].
  assert (Ed : Qeq_bool (scipy.cross a b c) 0 = false).
  { destruct (Qeq_bool (scipy.cross a b c) 0) eqn:Ed; [|reflexivity].
    apply Qeq_bool_iff in Ed. contradiction. }
  unfold scipy.locate, scipy.barycentric. cbn [nth_error]. cbv zeta. rewrite Ed.
  assert (B1 : Qle_bool 0 (scipy.cross q b c / scipy.cross a b c) = true)
    by (apply Qle_bool_iff; rewrite E1; exact H0).
  assert (B2 : Qle_bool 0 (scipy.cross a q c / scipy.cross a b c) = true)
    by (apply Qle_bool_iff; rewrite E2; exact H1).
  assert (B3 : Qle_bool 0 (scipy.cross a b q / scipy.cross a b c) = true)
    by (apply Qle_bool_iff; rewrite E3; exact H2).
  rewrite B1, B2, B3. discriminate.
Qed.

Lemma triangle_conforming (a b c : pt) :
  hull.conforming [a; b; c] [(0%nat, 1%nat, 2%nat)].
Proof.
  intros s q l i p [<-|[]] Hi Hp _. exists i, p.
  split; [|split; assumption].
  destruct i as [|[|[|i]]]; simpl; auto.
  destruct i; discriminate Hi.
Qed.



(** ** Interpolating at a sample *)

Lemma same_place_sym (a b : pt) : hull.same_place a b -> hull.same_place b a.
Proof. intros [H1 H2]. split; symmetry; assumption. Qed.

Lemma same_place_refl (a : pt) : hull.same_place a a.
Proof. split; reflexivity. Qed.

Lemma barycentric_at_first (a b c q : pt) (l1 l2 l3 : Q) :
  scipy.barycentric a b c q = Some (l1, l2, l3) -> hull.same_place a q ->
  l1 == 1 /\ l2 == 0 /\ l3 == 0.
Proof.
  intros H Hq. apply barycentric_spec in H. destruct H as [Hd [E1 [E2 E3]]].
  apply same_place_sym in Hq.
  rewrite (cross_compat Hq (same_place_refl b) (same_place_refl c)) in E1.
  rewrite (cross_compat (same_place_refl a) Hq (same_place_refl c)) in E2.
  rewrite (cross_compat (same_place_refl a) (same_place_refl b) Hq) in E3.
  rewrite E1, E2, E3. unfold scipy.cross in *.
  repeat split; field; exact Hd.
Qed.

Lemma barycentric_at_second (a b c q : pt) (l1 l2 l3 : Q) :
  scipy.barycentric a b c q = Some (l1, l2, l3) -> hull.same_place b q ->
  l1 == 0 /\ l2 == 1 /\ l3 == 0.
Proof.
  intros H Hq. apply barycentric_spec in H. destruct H as [Hd [E1 [E2 E3]]].
  apply same_place_sym in Hq.
  rewrite (cross_compat Hq (same_place_refl b) (same_place_refl c)) in E1.
  rewrite (cross_compat (same_place_refl a) Hq (same_place_refl c)) in E2.
  rewrite (cross_compat (same_place_refl a) (same_place_refl b) Hq) in E3.
  rewrite E1, E2, E3. unfold scipy.cross in *.
  repeat split; field; exact Hd.
Qed.

Lemma barycentric_at_third (a b c q : pt) (l1 l2 l3 : Q) :
  scipy.barycentric a b c q = Some (l1, l2, l3) -> hull.same_place c q ->
  l1 == 0 /\ l2 == 0 /\ l3 == 1.
Proof.
  intros H Hq. apply barycentric_spec in H. destruct H as [Hd [E1 [E2 E3]]].
  apply same_place_sym in Hq.
  rewrite (cross_compat Hq (same_place_refl b) (same_place_refl c)) in E1.
  rewrite (cross_compat (same_place_refl a) Hq (same_place_refl c)) in E2.
  rewrite (cross_compat (same_place_refl a) (same_place_refl b) Hq) in E3.
  rewrite E1, E2, E3. unfold scipy.cross in *.
  repeat split; field; exact Hd.
Qed.

Lemma nth_error_combine {A B : Type} (l1 : list A) (l2 : list B) (i : nat) :
  nth_error (combine l1 l2) i
  = match nth_error l1 i, nth_error l2 i with
    | Some a, Some b => Some (a, b)
    | _, _ => None
    end.
Proof.
  revert l2 i. induction l1 as [|a l1 IH]; intros [|b l2] [|i]; simpl; try reflexivity.
  - destruct (nth_error l1 i); reflexivity.
  - apply IH.
Qed.

Lemma sample_in_hull (points : list pt) (i : nat) (p q : pt) :
  nth_error points i = Some p -> hull.same_place p q -> hull.in_hull points q.
Proof.
  intros Hi [Hx Hy].
  apply (@convex_combination_in_hull points i i i p p p q 1 0 0);
    try assumption; try (unfold Qle; simpl; lia); try reflexivity.
  - rewrite <- Hx. ring.
  - rewrite <- Hy. ring.
Qed.

(** C8 as the code has it.  Take a grid point that coincides with a
    sample, triangles from Qhull that leave no hole in the hull and meet
    sample points only at their corners, and suppose every sample at that
    place has the elevation of this one.  Then the field is defined at the
    grid point and its value there is the sample's elevation. *)
Theorem exact_interpolation (qhull : Qhull) (x y z x_range y_range : list Q)
    (grid_z : list (list (option Q))) (r c i : nat) (xv yv xi yi zi : Q) :
  scipy.griddata (x, y) z (np.meshgrid x_range y_range) = Ok grid_z ->
  nth_error y_range r = Some yv -> nth_error x_range c = Some xv ->
  nth_error x i = Some xi -> nth_error y i = Some yi -> nth_error z i = Some zi ->
  xv == xi -> yv == yi ->
  hull.covers (combine x y) (delaunay (combine x y)) ->
  hull.conforming (combine x y) (delaunay (combine x y)) ->
  (forall j xj yj zj,
     nth_error x j = Some xj -> nth_error y j = Some yj -> nth_error z j = Some zj ->
     xj == xi -> yj == yi -> zj == zi) ->
  exists v, np.data_at grid_z r c = Some (Some v) /\ v == zi.
Proof.
  intros Hg Hr Hc Hxi Hyi Hzi Ex Ey Hcov Hconf Hsame.
  rewrite (@griddata_cell qhull x y z x_range y_range grid_z r c xv yv Hg Hr Hc).
  apply griddata_ok in Hg. destruct Hg as [Hlen _].
  set (points := combine x y) in *. set (tri := delaunay points) in *.
  assert (Hp : nth_error points i = Some (xi, yi)).
  { unfold points. rewrite nth_error_combine, Hxi, Hyi. reflexivity. }
  assert (Hpq : hull.same_place (xi, yi) (xv, yv)).
  { split; simpl; symmetry; assumption. }
  pose proof (@sample_in_hull points i (xi, yi) (xv, yv) Hp Hpq) as Hin.
  destruct (Hcov _ Hin) as [s0 [Hs0 Hloc0]].
  destruct (@find_simplex_exists points tri (xv, yv) s0 Hs0 Hloc0)
    as [[[[a b] d] [[l1 l2] l3]] Ef].
  unfold scipy.linear. rewrite Ef.
  apply find_simplex_some in Ef. destruct Ef as [Hs Hloc].
  destruct (Hconf _ _ _ _ _ Hs Hp Hpq Hloc) as [k [pk [Hk [Hpk Hkq]]]].
  apply locate_spec in Hloc.
  destruct Hloc as [pa [pb [pd [Ha [Hb [Hd [Hbary _]]]]]]].
  assert (Hz : forall n p, nth_error points n = Some p ->
             exists zn, nth_error z n = Some zn
                        /\ (hull.same_place p (xv, yv) -> zn == zi)).
  { intros n p Hn.
    destruct (nth_error z n) as [zn|] eqn:En.
    - exists zn. split; [reflexivity|]. intros [Hx Hy]. simpl in Hx, Hy.
      unfold points in Hn. rewrite nth_error_combine in Hn.
      destruct (nth_error x n) as [xn|] eqn:Exn; [|discriminate Hn].
      destruct (nth_error y n) as [yn|] eqn:Eyn; [|discriminate Hn].
      inversion Hn; subst. simpl in Hx, Hy.
      apply (Hsame n xn yn zn Exn Eyn En).
      + rewrite Hx. exact Ex.
      + rewrite Hy. exact Ey.
    - apply nth_error_length in Hn. apply nth_error_None in En. lia. }
  destruct (Hz a pa Ha) as [za [Eza Hza]].
  destruct (Hz b pb Hb) as [zb [Ezb Hzb]].
  destruct (Hz d pd Hd) as [zd [Ezd Hzd]].
  rewrite Eza, Ezb, Ezd. eexists. split; [reflexivity|].
  simpl in Hk. destruct Hk as [ -> | [ -> | -> ] ].
  - assert (pk = pa) by congruence. subst pk.
    destruct (@barycentric_at_first pa pb pd (xv, yv) l1 l2 l3 Hbary Hkq)
      as [E1 [E2 E3]].
    rewrite E1, E2, E3.
    rewrite <- (Hza Hkq). ring.
  - assert (pk = pb) by congruence. subst pk.
    destruct (@barycentric_at_second pa pb pd (xv, yv) l1 l2 l3 Hbary Hkq)
      as [E1 [E2 E3]].
    rewrite E1, E2, E3.
    rewrite <- (Hzb Hkq). ring.
  - assert (pk = pd) by congruence. subst pk.
    destruct (@barycentric_at_third pa pb pd (xv, yv) l1 l2 l3 Hbary Hkq)
      as [E1 [E2 E3]].
    rewrite E1, E2, E3.
    rewrite <- (Hzd Hkq). ring.
Qed.

Lemma exact_interpolation_witness :
  exists grid_z v,
    scipy.griddata (qhull := one_triangle) ([0; 3; 0], [0; 0; 3]) [1; 2; 4]
      (np.meshgrid [0; 1; 2] [0; 1; 2]) = Ok grid_z
    /\ np.data_at grid_z 0 0 = Some (Some v) /\ v == 1.
Proof.
  destruct (scipy.griddata (qhull := one_triangle) ([0; 3; 0], [0; 0; 3]) [1; 2; 4]
              (np.meshgrid [0; 1; 2] [0; 1; 2])) as [grid_z|e] eqn:Hg;
    [|vm_compute in Hg; discriminate Hg].
  destruct (@exact_interpolation one_triangle [0; 3; 0] [0; 0; 3] [1; 2; 4]
              [0; 1; 2] [0; 1; 2] grid_z 0 0 0 0 0 0 0 1
              Hg eq_refl eq_refl eq_refl eq_refl eq_refl) as [v [Hv Ev]].
  - reflexivity.
  - reflexivity.
  - apply (@triangle_covers (0, 0) (3, 0) (0, 3)).
    intros E. vm_compute in E. discriminate E.
  - apply (@triangle_conforming (0, 0) (3, 0) (0, 3)).
  - intros j xj yj zj Hx Hy Hz Ex Ey.
    destruct j as [|[|[|j]]]; simpl in Hx, Hy, Hz.
    + inversion Hz. reflexivity.
    + inversion Hx; subst. vm_compute in Ex. discriminate Ex.
    + inversion Hy; subst. vm_compute in Ey. discriminate Ey.
    + destruct j; discriminate Hx.
  - exists grid_z, v. split; [reflexivity|]. split; assumption.
Defined.

(** C8 as stated fails.  The class has the 100 lattice points and one
    more sample on top of the first, at (0, 0), with elevation 5 instead
    of 0.  The grid built from the samples starts at (0, 0), and the field
    there is 0: it is not the elevation of the last sample, which the grid
    point coincides with just as well. *)
Lemma stacked_samples_not_both_interpolated :
  select_class stacked_lattice 2
  = Ok (las_x stacked_lattice, las_y stacked_lattice, las_z stacked_lattice)
  /\ nth_error (las_x stacked_lattice) 100 = Some 0
  /\ nth_error (las_y stacked_lattice) 100 = Some 0
  /\ nth_error (las_z stacked_lattice) 100 = Some 5
  /\ exists x_range y_range grid_z v,
       grid_ranges (las_x stacked_lattice) (las_y stacked_lattice) 1
       = Ok (x_range, y_range)
       /\ nth_error x_range 0 = Some 0 /\ nth_error y_range 0 = Some 0
       /\ scipy.griddata (qhull := lattice_triangles)
            (las_x stacked_lattice, las_y stacked_lattice) (las_z stacked_lattice)
            (np.meshgrid x_range y_range) = Ok grid_z
       /\ np.data_at grid_z 0 0 = Some (Some v)
       /\ v == 0 /\ ~ v == 5.
Proof.
  split; [vm_compute; reflexivity|].
  do 3 (split; [reflexivity|]).
  do 4 eexists.
  split; [vm_compute; reflexivity|].
  do 2 (split; [reflexivity|]).
  split; [vm_compute; reflexivity|].
  split; [vm_compute; reflexivity|].
  split; [reflexivity|].
  intros E. vm_compute in E. discriminate E.
Qed.

(** Whatever the triangulation, no field gives both samples at (0, 0)
    their elevation at that grid point. *)
Remark stacked_samples_no_exact_field (grid_z : list (list (option Q))) :
  ~ (forall i zi,
       nth_error (las_x stacked_lattice) i = Some 0 ->
       nth_error (las_y stacked_lattice) i = Some 0 ->
       nth_error (las_z stacked_lattice) i = Some zi ->
       exists v, np.data_at grid_z 0 0 = Some (Some v) /\ v == zi).
Proof.
  intros H.
  destruct (H 0%nat 0 eq_refl eq_refl eq_refl) as [v [Hv E0]].
  destruct (H 100%nat 5 eq_refl eq_refl eq_refl) as [v' [Hv' E5]].
  rewrite Hv in Hv'. inversion Hv'; subst.
  rewrite E0 in E5. vm_compute in E5. discriminate E5.
Qed.

(** ** What the progress bar shows *)

Lemma sorted_snoc (l : list Q) (f : Q) :
  StronglySorted Qle l -> Forall (fun v => v <= f) l -> StronglySorted Qle (l ++ [f]).
Proof.
  induction l as [|v l IH]; intros Hs Hf; simpl.
  - constructor; constructor.
  - inversion Hs as [|? ? Hs' Hv]; subst. inversion Hf as [|? ? Hvf Hf']; subst.
    constructor; [apply IH; assumption|].
    apply Forall_app. split; [exact Hv | constructor; [exact Hvf | constructor]].
Qed.

Lemma truediv_ok (a b : Z) (f : Q) :
  truediv a b = Ok f -> b <> 0%Z /\ f = inject_Z a / inject_Z b.
Proof.
  unfold truediv. destruct (Z.eqb_spec b 0); intros H; inversion H.
  split; [assumption | reflexivity].
Qed.

Lemma update_ok (bar bar' : st.progress_bar) (f : Q) :
  st.update bar f = Ok bar' -> bar' = bar ++ [f] /\ 0 <= f /\ f <= 1.
Proof.
  unfold st.update, st.in_range.
  destruct (Qle_bool 0 f) eqn:E0; simpl; [|discriminate].
  destruct (Qle_bool f 1) eqn:E1; [|discriminate].
  intros H. inversion H. apply Qle_bool_iff in E0, E1. repeat split; assumption.
Qed.

Section Progress.

Context {qhull : Qhull} {mpl : Matplotlib}.

Variable las : las_data.
Variable selected_classes : list Z.
Variable custom_colors : dict.t (string * string).
Variable line_width : Q.
Variable grid_spacing : Q.

Local Abbreviation n := (inject_Z (Z.of_nat (length selected_classes))).
Local Abbreviation shown := (shown_up_to (length selected_classes)).

(** One iteration either leaves the bar alone (a [continue]) or appends
    [(i + 1) / n]. *)
Lemma class_body_bar (i : nat) (c : Z) (ax ax' : Axes) (bar bar' : st.progress_bar) :
  class_body las selected_classes custom_colors line_width grid_spacing i c (ax, bar)
  = Ok (ax', bar') ->
  (ax' = ax /\ bar' = bar)
  \/ exists f, bar' = bar ++ [f] /\ 0 <= f /\ f <= 1 /\ 0 < n
               /\ f * n == inject_Z (Z.of_nat i) + 1.
Proof.
  unfold class_body.
  destruct (dict.getitem custom_colors c) as [[classification color]|]; simpl;
    [|discriminate].
  destruct (select_class las c) as [[[x y] z]|]; simpl; [|discriminate].
  destruct (length z <? 100)%nat.
  { intros H. inversion H. left. split; reflexivity. }
  destruct (grid_ranges x y grid_spacing) as [[x_range y_range]|]; simpl;
    [|discriminate].
  bind_case grid_z.
  destruct (np.mask_all (np.masked_invalid grid_z)).
  { intros H. inversion H. left. split; reflexivity. }
  bind_case levels. bind_case drawn. destruct drawn as [ax1 contours].
  bind_case ax2.
  destruct (truediv _ _) as [f|] eqn:Ef; simpl; [|discriminate].
  destruct (st.update bar f) as [bar1|] eqn:Eu; simpl; [|discriminate].
  intros H. inversion H; subst. right.
  apply truediv_ok in Ef. destruct Ef as [Hn Ef].
  apply update_ok in Eu. destruct Eu as [-> [H0 H1]].
  exists f. repeat split; try assumption.
  - change 0 with (inject_Z 0). rewrite <- Zlt_Qlt. lia.
  - rewrite Ef. rewrite inject_Z_plus. change (inject_Z 1) with 1.
    field. change 0 with (inject_Z 0). rewrite inject_Z_injective. lia.
Qed.

Lemma shown_next (i : nat) (bar : st.progress_bar) : shown i bar -> shown (S i) bar.
Proof.
  intros [Hs Hf]. split; [exact Hs|].
  eapply Forall_impl; [|exact Hf]. cbv beta. intros v [H0 [H1 H2]].
  repeat split; try assumption.
  rewrite Nat2Z.inj_succ. unfold Z.succ. rewrite inject_Z_plus.
  change (inject_Z 1) with 1. lra.
Qed.

Lemma for_classes_bar (i : nat) (classes : list Z) (ax ax' : Axes)
    (bar bar' : st.progress_bar) :
  shown i bar ->
  for_classes las selected_classes custom_colors line_width grid_spacing
    i classes (ax, bar) = Ok (ax', bar') ->
  shown (i + length classes) bar'.
Proof.
  revert i ax bar. induction classes as [|c classes IH]; intros i ax bar Hb; simpl.
  - intros H. inversion H; subst. rewrite Nat.add_0_r. exact Hb.
  - intros H. apply bind_ok in H. destruct H as [[ax1 bar1] [Hbody Hrest]].
    rewrite Nat.add_succ_r. apply (IH (S i) ax1 bar1); [|exact Hrest].
    apply class_body_bar in Hbody.
    destruct Hbody as [[_ ->]|[f [-> [H0 [H1 [Hn Hf]]]]]].
    + apply shown_next. exact Hb.
    + destruct (shown_next Hb) as [Hs Hall]. destruct Hb as [_ Hprev]. split.
      * apply sorted_snoc; [exact Hs|].
        eapply Forall_impl; [|exact Hprev]. cbv beta. intros v [_ [_ Hv]].
        apply (Qmult_le_r v f n Hn). rewrite Hf. lra.
      * apply Forall_app. split; [exact Hall|].
        constructor; [|constructor]. repeat split; try assumption.
        rewrite Hf, Nat2Z.inj_succ. unfold Z.succ. rewrite inject_Z_plus.
        apply Qle_refl.
Qed.

(** X17.  The values the bar shows during a completed request never
    decrease and all lie between 0 and 1. *)
Lemma reported_fractions_sorted (out : output) :
  generate las selected_classes custom_colors line_width grid_spacing = Ok out ->
  StronglySorted Qle (reported out)
  /\ Forall (fun v => 0 <= v /\ v <= 1) (reported out).
Proof.
  rewrite generate_eq. intros H. apply bind_ok in H.
  destruct H as [[ax bar] [Hloop Hout]]. inversion Hout; subst. simpl.
  assert (H0 : shown 0 [0]).
  { split; [repeat constructor|].
    constructor; [|constructor]. repeat split; try (unfold Qle; simpl; lia). }
  destruct (for_classes_bar _ _ H0 Hloop) as [Hs Hall].
  split; [exact Hs|].
  eapply Forall_impl; [|exact Hall]. cbv beta. intros v [Hv0 [Hv1 _]].
  split; assumption.
Qed.

End Progress.

(** ** The colour table and the picked colours *)

Lemma pick_color_eq (color_picker : Z -> string -> string -> string)
    (d : dict.t (string * string)) (k : Z) :
  pick_color color_picker d k = dict.setitem d k (picked_style color_picker k).
Proof.
  unfold pick_color, picked_style, style_of.
  destruct (dict.get default_classification_styles k ("Unknown", "yellow")%string).
  reflexivity.
Qed.

Lemma fold_pick_color_kept (color_picker : Z -> string -> string -> string)
    (classes : list Z) (d : dict.t (string * string)) (c : Z) :
  dict.getitem d c = Ok (picked_style color_picker c) ->
  dict.getitem (fold_left (pick_color color_picker) classes d) c
  = Ok (picked_style color_picker c).
Proof.
  revert d. induction classes as [|k classes IH]; intros d H; simpl; [exact H|].
  apply IH. rewrite pick_color_eq.
  destruct (Z.eq_dec k c) as [->|N].
  - apply getitem_setitem_same.
  - rewrite getitem_setitem_other; assumption.
Qed.

Lemma fold_pick_color_missing (color_picker : Z -> string -> string -> string)
    (classes : list Z) (d : dict.t (string * string)) (c : Z) :
  ~ In c classes -> dict.getitem d c = Raise KeyError ->
  dict.getitem (fold_left (pick_color color_picker) classes d) c = Raise KeyError.
Proof.
  revert d. induction classes as [|k classes IH]; intros d HOut H; simpl; [exact H|].
  apply IH.
  - intros HIn. apply HOut. right. exact HIn.
  - rewrite pick_color_eq, getitem_setitem_other; [exact H|].
    intros ->. apply HOut. left. reflexivity.
Qed.

(** X1.  After lines 61-67, looking up a selected class in [custom_colors]
    gives its label from the style table (or "Unknown") and the colour the
    user picked for it, however often and wherever the class occurs in the
    selection. *)
Theorem customize_colors_lookup (color_picker : Z -> string -> string -> string)
    (selected_classes : list Z) (c : Z) :
  In c selected_classes ->
  dict.getitem (customize_colors color_picker selected_classes) c
  = Ok (picked_style color_picker c).
Proof.
  unfold customize_colors. generalize (@nil (Z * (string * string))) as d.
  induction selected_classes as [|k classes IH]; intros d HIn; simpl.
  - destruct HIn.
  - destruct HIn as [->|HIn].
    + apply fold_pick_color_kept. rewrite pick_color_eq. apply getitem_setitem_same.
    + apply IH. exact HIn.
Qed.

Lemma customize_colors_lookup_witness :
  dict.getitem (customize_colors default_picker [2%Z; 40%Z; 6%Z]) 40
  = Ok (picked_style default_picker 40).
Proof.
  apply (@customize_colors_lookup default_picker [2%Z; 40%Z; 6%Z] 40%Z).
  right. left. reflexivity.
Defined.

(** X2.  [custom_colors] holds the selected classes only: indexing it with
    a class that was not selected raises [KeyError]. *)
Theorem customize_colors_missing (color_picker : Z -> string -> string -> string)
    (selected_classes : list Z) (c : Z) :
  ~ In c selected_classes ->
  dict.getitem (customize_colors color_picker selected_classes) c = Raise KeyError.
Proof.
  intros HOut. unfold customize_colors.
  apply fold_pick_color_missing; [exact HOut | reflexivity].
Qed.

Lemma customize_colors_missing_witness :
  dict.getitem (customize_colors default_picker [2%Z; 40%Z; 6%Z]) 5 = Raise KeyError.
Proof.
  apply (@customize_colors_missing default_picker [2%Z; 40%Z; 6%Z] 5%Z).
  intros [H|[H|[H|[]]]]; discriminate H.
Defined.

Lemma get_of_getitem {V : Type} (d : dict.t V) (k : Z) (default : V) :
  dict.get d k default
  = match dict.getitem d k with
    | Ok v => v
    | Raise _ => default
    end.
Proof.
  induction d as [|[k' v'] d IH]; simpl; [reflexivity|].
  destruct (Z.eqb k' k); [reflexivity | exact IH].
Qed.

(** X3.  The style table has an entry for each of the codes 0 to 18 and
    for no other code: for those codes the lookup with default returns the
    table's entry, whose label is not "Unknown"; for every other code it
    returns ("Unknown", "yellow"). *)
Theorem classification_styles_codes (cls : Z) :
  ((0 <= cls <= 18)%Z ->
   dict.getitem default_classification_styles cls = Ok (style_of cls)
   /\ fst (style_of cls) <> "Unknown"%string)
  /\ (~ (0 <= cls <= 18)%Z ->
      dict.getitem default_classification_styles cls = Raise KeyError
      /\ style_of cls = ("Unknown", "yellow")%string).
Proof.
  split.
  - intros H.
    assert (C : (cls = 0 \/ cls = 1 \/ cls = 2 \/ cls = 3 \/ cls = 4 \/ cls = 5
                 \/ cls = 6 \/ cls = 7 \/ cls = 8 \/ cls = 9 \/ cls = 10 \/ cls = 11
                 \/ cls = 12 \/ cls = 13 \/ cls = 14 \/ cls = 15 \/ cls = 16
                 \/ cls = 17 \/ cls = 18)%Z) by lia.
    repeat (destruct C as [C|C]; [subst; split; [reflexivity | discriminate]|]).
    subst. split; [reflexivity | discriminate].
  - intros H.
    assert (E : dict.getitem default_classification_styles cls = Raise KeyError).
    { unfold default_classification_styles. cbn [dict.getitem].
      repeat (match goal with
              | |- context [Z.eqb ?k cls] =>
                  destruct (Z.eqb_spec k cls); [exfalso; lia|]
              end).
      reflexivity. }
    split; [exact E|].
    unfold style_of. rewrite get_of_getitem, E. reflexivity.
Qed.

(** ** The classes the selector offers *)

Lemma insert_unique_In (v x : Z) (l : list Z) :
  In x (np.insert_unique v l) <-> x = v \/ In x l.
Proof.
  induction l as [|u l IH]; simpl.
  - intuition.
  - destruct (Z.ltb_spec v u); simpl; [intuition|].
    destruct (Z.eqb_spec v u); simpl.
    + subst. intuition.
    + rewrite IH. intuition.
Qed.

Lemma insert_unique_sorted (v : Z) (l : list Z) :
  StronglySorted Z.lt l -> StronglySorted Z.lt (np.insert_unique v l).
Proof.
  induction l as [|u l IH]; intros Hs; simpl.
  - constructor; constructor.
  - inversion Hs as [|? ? Hs' Hu]; subst.
    destruct (Z.ltb_spec v u).
    + constructor; [exact Hs|]. constructor; [assumption|].
      eapply Forall_impl; [|exact Hu]. cbv beta. intros. lia.
    + destruct (Z.eqb_spec v u); [exact Hs|].
      constructor; [apply IH; exact Hs'|].
      apply Forall_forall. intros x Hx. apply insert_unique_In in Hx.
      destruct Hx as [->|Hx]; [lia|].
      rewrite Forall_forall in Hu. apply Hu. exact Hx.
Qed.

Lemma unique_In (a : list Z) (x : Z) : In x (np.unique a) <-> In x a.
Proof.
  induction a as [|v a IH]; simpl; [reflexivity|].
  rewrite insert_unique_In, IH. intuition.
Qed.

Lemma unique_sorted (a : list Z) : StronglySorted Z.lt (np.unique a).
Proof.
  induction a as [|v a IH]; simpl; [constructor|].
  apply insert_unique_sorted. exact IH.
Qed.

Lemma sorted_NoDup (l : list Z) : StronglySorted Z.lt l -> NoDup l.
Proof.
  induction l as [|u l IH]; intros Hs; [constructor|].
  inversion Hs as [|? ? Hs' Hu]; subst. constructor; [|apply IH; exact Hs'].
  intros HIn. rewrite Forall_forall in Hu. specialize (Hu u HIn). lia.
Qed.

Lemma class_subset_nonempty (las : las_data) (c : Z) :
  class_subset las c <> [] <-> In c (las_classification las).
Proof.
  unfold las_classification. rewrite in_map_iff. split.
  - intros H. destruct (class_subset las c) as [|p rest] eqn:E; [contradiction|].
    assert (HIn : In p (class_subset las c)) by (rewrite E; left; reflexivity).
    unfold class_subset in HIn. apply filter_In in HIn. destruct HIn as [HIn Hc].
    apply Z.eqb_eq in Hc. exists p. split; assumption.
  - intros [p [Hc HIn]] E.
    assert (H : In p (class_subset las c)).
    { unfold class_subset. apply filter_In. split; [exact HIn|].
      apply Z.eqb_eq. exact Hc. }
    rewrite E in H. destruct H.
Qed.

(** X4.  The codes the selector offers are strictly ascending, so each
    occurs once, and a code is offered exactly when the file has a point
    of that class. *)
Theorem unique_classes_offered (las : las_data) :
  StronglySorted Z.lt (unique_classes las)
  /\ NoDup (unique_classes las)
  /\ forall c, In c (unique_classes las) <-> class_subset las c <> [].
Proof.
  unfold unique_classes. split; [apply unique_sorted|].
  split; [apply sorted_NoDup, unique_sorted|].
  intros c. rewrite unique_In, class_subset_nonempty. reflexivity.
Qed.

Lemma indicator_sum (k : Z) (codes : list Z) :
  NoDup codes -> In k codes ->
  list_sum (map (fun c => if Z.eqb k c then 1%nat else 0%nat) codes) = 1%nat.
Proof.
  induction codes as [|u codes IH]; intros Hn HIn; [destruct HIn|].
  inversion Hn as [|? ? Hu Hn']; subst. simpl.
  destruct (Z.eqb_spec k u) as [->|N].
  - assert (Z : list_sum (map (fun c => if Z.eqb u c then 1%nat else 0%nat) codes)
                = 0%nat).
    { clear IH Hn Hn' HIn. induction codes as [|w codes IH]; simpl; [reflexivity|].
      destruct (Z.eqb_spec u w) as [->|_].
      - exfalso. apply Hu. left. reflexivity.
      - apply IH. intros H. apply Hu. right. exact H. }
    rewrite Z. reflexivity.
  - destruct HIn as [->|HIn]; [contradiction|]. apply IH; assumption.
Qed.

Lemma list_sum_step (a : nat) (l : list nat) :
  list_sum (a :: l) = (a + list_sum l)%nat.
Proof. reflexivity. Qed.

Lemma class_sizes_sum (las : las_data) (codes : list Z) :
  NoDup codes ->
  (forall p, In p las -> In (pt_classification p) codes) ->
  list_sum (map (fun c => length (class_subset las c)) codes) = length las.
Proof.
  intros Hn. induction las as [|p las IH]; intros Hall.
  - simpl. clear Hn Hall. induction codes as [|u codes IHc]; simpl; [reflexivity|].
    exact IHc.
  - assert (E : forall l,
               list_sum (map (fun c => length (class_subset (p :: las) c)) l)
               = (list_sum (map (fun c => if Z.eqb (pt_classification p) c
                                          then 1%nat else 0%nat) l)
                  + list_sum (map (fun c => length (class_subset las c)) l))%nat).
    { induction l as [|u l IHl]; [reflexivity|].
      cbn [map]. rewrite !list_sum_step, IHl. unfold class_subset. cbn [filter].
      destruct (Z.eqb (pt_classification p) u); cbn [length]; lia. }
    rewrite E, indicator_sum, IH; try assumption.
    + reflexivity.
    + intros q Hq. apply Hall. right. exact Hq.
    + apply Hall. left. reflexivity.
Qed.

(** X5.  The classes the selector offers split the file: the sizes of
    their subsets add up to the number of points, so every point is in the
    subset of exactly one offered class. *)
Theorem offered_classes_partition (las : las_data) :
  list_sum (map (fun c => length (class_subset las c)) (unique_classes las))
  = length las.
Proof.
  apply class_sizes_sum.
  - apply sorted_NoDup, unique_sorted.
  - intros p Hp. unfold unique_classes. apply unique_In.
    unfold las_classification. apply in_map. exact Hp.
Qed.

Example unique_classes_run :
  unique_classes (points_on_a_line 3 5 ++ points_on_a_line 2 2 ++ points_on_a_line 1 5)
  = [2%Z; 5%Z].
Proof. reflexivity. Qed.

(** ** How far the grid and the levels reach *)

Lemma quotient_sign (d step : Q) : 0 < step -> (d / step <= 0 <-> d <= 0).
Proof.
  intros Hs.
  assert (E : d / step * step == d) by (field; apply positive_nonzero; exact Hs).
  split; intros H.
  - rewrite <- E. setoid_replace 0 with (0 * step) by ring.
    apply Qmult_le_r; assumption.
  - apply (Qmult_le_r _ _ step Hs). rewrite E. lra.
Qed.

Lemma arange_empty (start stop step : Q) (l : list Q) :
  0 < step -> np.arange start stop step = Ok l -> (l = [] <-> stop <= start).
Proof.
  intros Hs Ha. pose proof (arange_length _ _ _ Ha) as Hl.
  pose proof (Qle_ceiling ((stop - start) / step)) as Hc.
  pose proof (quotient_sign (stop - start) Hs) as Hq.
  split.
  - intros ->. simpl in Hl.
    assert (Qceiling ((stop - start) / step) <= 0)%Z by lia.
    rewrite Zle_Qle in H.
    assert ((stop - start) / step <= 0) by (eapply Qle_trans; eassumption).
    apply Hq in H0. lra.
  - intros Hle.
    assert ((stop - start) / step <= 0) by (apply Hq; lra).
    apply Qceiling_resp_le in H. change (Qceiling 0) with 0%Z in H.
    destruct l; [reflexivity|]. simpl in Hl. lia.
Qed.

Lemma arange_span (start stop step : Q) (l : list Q) :
  0 < step -> np.arange start stop step = Ok l -> axis_span l start stop step.
Proof.
  intros Hs Ha.
  split; [exact (@arange_sorted start stop step l Hs Ha)|].
  split; [exact (@arange_empty start stop step l Hs Ha)|].
  intros Hlt.
  assert (Hne : l <> []).
  { intros E. apply (@arange_empty start stop step l Hs Ha) in E. lra. }
  pose proof (arange_length _ _ _ Ha) as Hl.
  destruct l as [|first rest] eqn:El; [contradiction|]. rewrite <- El in *.
  assert (Hn : (0 < length l)%nat) by (rewrite El; simpl; lia).
  destruct (nth_error l (length l - 1)) as [final|] eqn:En;
    [|apply nth_error_None in En; lia].
  exists first, final.
  assert (H0 : nth_error l 0 = Some first) by (rewrite El; reflexivity).
  destruct (arange_nth _ _ _ _ Ha H0) as [E0 _].
  destruct (arange_nth _ _ _ _ Ha En) as [En' _].
  split; [rewrite El; reflexivity|].
  split; [rewrite E0; simpl; ring|].
  split; [reflexivity|].
  pose proof (@arange_below_stop _ _ _ _ _ _ Hs Ha En) as Hbelow.
  split; [|lra].
  rewrite En'.
  assert (Ei : Z.of_nat (length l - 1) = (Qceiling ((stop - start) / step) - 1)%Z)
    by lia.
  rewrite Ei. unfold Z.sub. rewrite inject_Z_plus.
  change (inject_Z (- (1))) with (- (1)).
  pose proof (Qle_ceiling ((stop - start) / step)) as Hc.
  assert (E : (stop - start) / step * step == stop - start)
    by (field; apply positive_nonzero; exact Hs).
  apply (Qmult_le_r _ _ step Hs) in Hc. rewrite E in Hc. lra.
Qed.

Lemma np_min_is_least (v : list Q) (m : Q) : np.min v = Ok m -> least v m.
Proof.
  intros E. split; [exact (np_min_In _ E) | exact (np_min_least _ E)].
Qed.

Lemma np_max_is_greatest (v : list Q) (m : Q) : np.max v = Ok m -> greatest v m.
Proof.
  intros E. split; [exact (np_max_In _ E) | exact (np_max_greatest _ E)].
Qed.




(** X7.  With a negative spacing the grid builder does not fail: both
    axes come out empty. *)
Theorem grid_ranges_negative_spacing (x y : list Q) (grid_spacing : Q) :
  x <> [] -> y <> [] -> grid_spacing < 0 ->
  grid_ranges x y grid_spacing = Ok ([], []).
Proof.
  intros Hx Hy Hs.
  assert (Hn : ~ grid_spacing == 0) by (intros E; rewrite E in Hs; lra).
  assert (Hz : forall lo hi, lo <= hi ->
                 Z.to_nat (Qceiling ((hi - lo) / grid_spacing)) = 0%nat).
  { intros lo hi Hle.
    assert (E : (hi - lo) / grid_spacing * grid_spacing == hi - lo)
      by (field; exact Hn).
    assert (Hq : (hi - lo) / grid_spacing <= 0).
    { apply Qnot_lt_le. intros Hpos.
      assert (- grid_spacing > 0) by lra.
      assert (0 * (- grid_spacing) < (hi - lo) / grid_spacing * (- grid_spacing))
        by (apply Qmult_lt_r; assumption).
      lra. }
    apply Qceiling_resp_le in Hq. change (Qceiling 0) with 0%Z in Hq. lia. }
  destruct (np_min_total Hx) as [x_min Exmin], (np_max_total Hx) as [x_max Exmax].
  destruct (np_min_total Hy) as [y_min Eymin], (np_max_total Hy) as [y_max Eymax].
  unfold grid_ranges. rewrite Exmin, Exmax. cbn [bind].
  rewrite (arange_eq x_min x_max Hn), (Hz _ _ (np_min_le_max _ Exmin Exmax)).
  cbn [bind seq map]. rewrite Eymin, Eymax. cbn [bind].
  rewrite (arange_eq y_min y_max Hn), (Hz _ _ (np_min_le_max _ Eymin Eymax)).
  reflexivity.
Qed.

Lemma grid_ranges_negative_spacing_witness :
  grid_ranges [0; 3; 1] [2; 2; 5] (-1) = Ok ([], []).
Proof.
  apply (@grid_ranges_negative_spacing [0; 3; 1] [2; 2; 5] (-1));
    [discriminate | discriminate | reflexivity].
Defined.

Lemma column_between (z : list Q) (lo hi : Q) :
  np.min z = Ok lo -> np.max z = Ok hi -> Forall (fun v => lo <= v /\ v <= hi) z.
Proof.
  intros Emin Emax. apply np_min_least in Emin. apply np_max_greatest in Emax.
  rewrite Forall_forall in *. intros v Hv. split; [apply Emin | apply Emax]; exact Hv.
Qed.

Lemma contour_levels_total (z : list Q) :
  z <> [] -> exists levels, contour_levels z = Ok levels.
Proof.
  intros Hz.
  destruct (np_min_total Hz) as [lo Emin], (np_max_total Hz) as [hi Emax].
  unfold contour_levels. rewrite Emin, Emax. cbn [bind].
  rewrite arange_eq; [eexists; reflexivity|].
  apply positive_nonzero. reflexivity.
Qed.





(** X8.  The levels bracket the elevations of the class: every elevation
    lies between [floor(min(z))] and [ceil(max(z))].  There is no level at
    all exactly when every elevation is one and the same whole number;
    otherwise the first level is [floor(min(z))] and the last level is
    below [ceil(max(z))] by less than 0.4. *)
Theorem contour_levels_span (z levels : list Q) (lo hi : Q) :
  np.min z = Ok lo -> np.max z = Ok hi -> contour_levels z = Ok levels ->
  least z lo /\ greatest z hi
  /\ Forall (fun v => inject_Z (Qfloor lo) <= v /\ v <= inject_Z (Qceiling hi)) z
  /\ (levels = [] <-> Forall (fun v => v == inject_Z (Qfloor lo)) z)
  /\ (levels <> [] ->
      exists first top,
        hd_error levels = Some first /\ first == inject_Z (Qfloor lo)
        /\ nth_error levels (length levels - 1) = Some top
        /\ inject_Z (Qceiling hi) - 0.4 < top /\ top < inject_Z (Qceiling hi)).
Proof.
  intros Emin Emax. unfold contour_levels. rewrite Emin, Emax. cbn [bind].
  intros Ha.
  assert (Hstep : 0 < 0.2) by reflexivity.
  pose proof (column_between _ Emin Emax) as Hz.
  pose proof (Qfloor_le lo) as Hf. pose proof (Qle_ceiling hi) as Hc.
  pose proof (@arange_empty _ _ _ _ Hstep Ha) as He.
  split; [exact (np_min_is_least _ Emin)|].
  split; [exact (np_max_is_greatest _ Emax)|].
  split.
  { eapply Forall_impl; [|exact Hz]. cbv beta.
    intros v [H1 H2]. split; lra. }
  split.
  { rewrite He. unfold np.floor, np.ceil in *. split.
    - intros Hle. eapply Forall_impl; [|exact Hz]. cbv beta. intros v [H1 H2]. lra.
    - intros Hall. pose proof (np_max_In _ Emax) as Hin.
      rewrite Forall_forall in Hall. rewrite (Hall hi Hin), Qceiling_Z.
      apply Qle_refl. }
  intros Hne.
  assert (Hlt : np.floor lo < np.ceil hi).
  { apply Qnot_le_lt. intros Hle. apply Hne. apply He. exact Hle. }
  destruct (@arange_span _ _ _ _ Hstep Ha) as [_ [_ Hspan]].
  destruct (Hspan Hlt) as [first [top [H0 [E0 [Hn [Hlow _]]]]]].
  pose proof (@arange_below_stop _ _ _ _ _ _ Hstep Ha Hn) as Hbelow.
  exists first, top. unfold np.floor, np.ceil in *.
  split; [exact H0|]. split; [exact E0|]. split; [exact Hn|].
  split; [lra | exact Hbelow].
Qed.

Lemma contour_levels_span_witness :
  exists levels,
    contour_levels [1.5; 0.25; 0.75] = Ok levels
    /\ least [1.5; 0.25; 0.75] 0.25 /\ greatest [1.5; 0.25; 0.75] 1.5
    /\ Forall (fun v => inject_Z (Qfloor 0.25) <= v /\ v <= inject_Z (Qceiling 1.5))
         [1.5; 0.25; 0.75]
    /\ (levels = [] <-> Forall (fun v => v == inject_Z (Qfloor 0.25)) [1.5; 0.25; 0.75])
    /\ (levels <> [] ->
        exists first top,
          hd_error levels = Some first /\ first == inject_Z (Qfloor 0.25)
          /\ nth_error levels (length levels - 1) = Some top
          /\ inject_Z (Qceiling 1.5) - 0.4 < top /\ top < inject_Z (Qceiling 1.5)).
Proof.
  eexists. split; [reflexivity|].
  apply (@contour_levels_span [1.5; 0.25; 0.75] _ 0.25 1.5); reflexivity.
Defined.

(** ** The interpolated field, cell by cell *)

Lemma griddata_cell_inv {qhull : Qhull} (x y z x_range y_range : list Q)
    (grid_z : list (list (option Q))) (r c : nat) (cell : option Q) :
  scipy.griddata (x, y) z (np.meshgrid x_range y_range) = Ok grid_z ->
  np.data_at grid_z r c = Some cell ->
  exists xv yv,
    nth_error y_range r = Some yv /\ nth_error x_range c = Some xv
    /\ cell = scipy.linear (combine x y) z (delaunay (combine x y)) (xv, yv).
Proof.
  intros Hg Hcell.
  destruct (nth_error y_range r) as [yv|] eqn:Er.
  - destruct (nth_error x_range c) as [xv|] eqn:Ec.
    + exists xv, yv.
      rewrite (@griddata_cell qhull x y z x_range y_range grid_z r c xv yv Hg Er Ec)
        in Hcell.
      inversion Hcell. repeat split; reflexivity.
    + exfalso. apply griddata_ok in Hg. destruct Hg as [_ [_ ->]].
      unfold np.data_at, np.meshgrid in Hcell. simpl in Hcell.
      rewrite map2_nth, !nth_error_map, Er in Hcell. simpl in Hcell.
      rewrite map2_nth, Ec in Hcell. discriminate Hcell.
  - exfalso. apply griddata_ok in Hg. destruct Hg as [_ [_ ->]].
    unfold np.data_at, np.meshgrid in Hcell. simpl in Hcell.
    rewrite map2_nth, !nth_error_map, Er in Hcell. discriminate Hcell.
Qed.

Lemma linear_value (points : list pt) (values : list Q) (tri : list simplex)
    (q : pt) (v : Q) :
  scipy.linear points values tri q = Some v ->
  exists i j k a b c zi zj zk l1 l2 l3,
    nth_error points i = Some a /\ nth_error points j = Some b
    /\ nth_error points k = Some c
    /\ nth_error values i = Some zi /\ nth_error values j = Some zj
    /\ nth_error values k = Some zk
    /\ scipy.barycentric a b c q = Some (l1, l2, l3)
    /\ 0 <= l1 /\ 0 <= l2 /\ 0 <= l3
    /\ v = l1 * zi + l2 * zj + l3 * zk.
Proof.
  unfold scipy.linear.
  destruct (scipy.find_simplex points tri q) as [[[[i j] k] [[l1 l2] l3]]|] eqn:Ef;
    [|discriminate].
  apply find_simplex_some in Ef. destruct Ef as [_ Ef].
  apply locate_spec in Ef.
  destruct Ef as [a [b [c [Hi [Hj [Hk [Hb [H1 [H2 H3]]]]]]]]].
  destruct (nth_error values i) as [zi|] eqn:Ei; [|discriminate].
  destruct (nth_error values j) as [zj|] eqn:Ej; [|discriminate].
  destruct (nth_error values k) as [zk|] eqn:Ek; [|discriminate].
  intros H. inversion H.
  exists i, j, k, a, b, c, zi, zj, zk, l1, l2, l3.
  repeat split; assumption || reflexivity.
Qed.

(** X9.  Linear interpolation does not overshoot: every value of the
    field that is not NaN lies between the least and the greatest
    elevation of the samples. *)
Theorem field_within_elevations (qhull : Qhull) (x y z x_range y_range : list Q)
    (grid_z : list (list (option Q))) (r c : nat) (v lo hi : Q) :
  scipy.griddata (x, y) z (np.meshgrid x_range y_range) = Ok grid_z ->
  np.data_at grid_z r c = Some (Some v) ->
  np.min z = Ok lo -> np.max z = Ok hi ->
  lo <= v /\ v <= hi.
Proof.
  intros Hg Hcell Emin Emax.
  destruct (griddata_cell_inv _ _ _ _ _ _ _ Hg Hcell) as [xv [yv [_ [_ Hv]]]].
  symmetry in Hv. apply linear_value in Hv.
  destruct Hv as [i [j [k [a [b [d [zi [zj [zk [l1 [l2 [l3
    [_ [_ [_ [Hi [Hj [Hk [Hb [H1 [H2 [H3 ->]]]]]]]]]]]]]]]]]]]]]].
  apply barycentric_combination in Hb. destruct Hb as [Hsum _].
  pose proof (column_between _ Emin Emax) as Hz. rewrite Forall_forall in Hz.
  destruct (Hz zi (nth_error_In _ _ Hi)) as [Li Ui].
  destruct (Hz zj (nth_error_In _ _ Hj)) as [Lj Uj].
  destruct (Hz zk (nth_error_In _ _ Hk)) as [Lk Uk].
  assert (A1 : 0 <= l1 * (zi - lo)) by (apply Qmult_le_0_compat; lra).
  assert (A2 : 0 <= l2 * (zj - lo)) by (apply Qmult_le_0_compat; lra).
  assert (A3 : 0 <= l3 * (zk - lo)) by (apply Qmult_le_0_compat; lra).
  assert (B1 : 0 <= l1 * (hi - zi)) by (apply Qmult_le_0_compat; lra).
  assert (B2 : 0 <= l2 * (hi - zj)) by (apply Qmult_le_0_compat; lra).
  assert (B3 : 0 <= l3 * (hi - zk)) by (apply Qmult_le_0_compat; lra).
  assert (E1 : l1 * zi + l2 * zj + l3 * zk - lo
               == l1 * (zi - lo) + l2 * (zj - lo) + l3 * (zk - lo)
                  + (l1 + l2 + l3 - 1) * lo) by ring.
  assert (E2 : hi - (l1 * zi + l2 * zj + l3 * zk)
               == l1 * (hi - zi) + l2 * (hi - zj) + l3 * (hi - zk)
                  - (l1 + l2 + l3 - 1) * hi) by ring.
  rewrite Hsum in E1, E2. split; lra.
Qed.

Lemma field_within_elevations_witness :
  exists grid_z v,
    scipy.griddata (qhull := one_triangle) ([0; 3; 0], [0; 0; 3]) [1; 2; 4]
      (np.meshgrid [0; 1; 2] [0; 1; 2]) = Ok grid_z
    /\ np.data_at grid_z 1 1 = Some (Some v)
    /\ 1 <= v /\ v <= 4.
Proof.
  do 2 eexists. split; [reflexivity|]. split; [vm_compute; reflexivity|].
  apply (@field_within_elevations one_triangle [0; 3; 0] [0; 0; 3] [1; 2; 4]
           [0; 1; 2] [0; 1; 2] _ 1 1 _ 1 4 eq_refl); reflexivity.
Defined.

Lemma field_shape (f : Q -> Q -> option Q) (x_range y_range : list Q) :
  length (scipy.map2 (scipy.map2 f) (fst (np.meshgrid x_range y_range))
            (snd (np.meshgrid x_range y_range))) = length y_range
  /\ Forall (fun row => length row = length x_range)
       (scipy.map2 (scipy.map2 f) (fst (np.meshgrid x_range y_range))
          (snd (np.meshgrid x_range y_range))).
Proof.
  unfold scipy.map2, np.meshgrid. simpl. split.
  - rewrite length_map, length_combine, !length_map. apply Nat.min_id.
  - apply Forall_forall. intros row Hrow. apply in_map_iff in Hrow.
    destruct Hrow as [[gx gy] [<- Hin]]. simpl.
    pose proof (in_combine_l _ _ _ _ Hin) as Hl.
    pose proof (in_combine_r _ _ _ _ Hin) as Hr.
    apply in_map_iff in Hl. destruct Hl as [_ [<- _]].
    apply in_map_iff in Hr. destruct Hr as [yv [<- _]].
    rewrite length_map, length_combine, length_map. apply Nat.min_id.
Qed.

(** X11.  The field [griddata] returns has one row for each y node and
    one cell for each x node, and the mask made from it has the same
    shape.  A cell that is not masked has its node in one of the triangles
    Qhull returned, and so in the convex hull of the samples. *)
Theorem field_cells (qhull : Qhull) (x y z x_range y_range : list Q)
    (grid_z : list (list (option Q))) :
  scipy.griddata (x, y) z (np.meshgrid x_range y_range) = Ok grid_z ->
  length grid_z = length y_range
  /\ Forall (fun row => length row = length x_range) grid_z
  /\ length (np.mask (np.masked_invalid grid_z)) = length y_range
  /\ Forall (fun row => length row = length x_range)
       (np.mask (np.masked_invalid grid_z))
  /\ forall r c,
       np.mask_at (np.masked_invalid grid_z) r c = Some false ->
       exists xv yv s,
         nth_error y_range r = Some yv /\ nth_error x_range c = Some xv
         /\ In s (delaunay (combine x y))
         /\ hull.in_triangle (combine x y) s (xv, yv)
         /\ hull.in_hull (combine x y) (xv, yv).
Proof.
  intros Hg.
  pose proof (griddata_ok _ _ _ _ Hg) as [_ [_ Eg]].
  destruct (field_shape (fun gx gy =>
              scipy.linear (combine x y) z (delaunay (combine x y)) (gx, gy))
              x_range y_range) as [Hlen Hall].
  rewrite <- Eg in Hlen, Hall.
  split; [exact Hlen|]. split; [exact Hall|].
  split; [unfold np.masked_invalid; simpl; rewrite length_map; exact Hlen|].
  split.
  { unfold np.masked_invalid. simpl.
    apply Forall_forall. intros row Hrow. apply in_map_iff in Hrow.
    destruct Hrow as [src [<- Hsrc]]. rewrite length_map.
    rewrite Forall_forall in Hall. apply Hall. exact Hsrc. }
  intros r c Hm. rewrite mask_at_masked_invalid in Hm.
  destruct (np.data_at grid_z r c) as [[v|]|] eqn:Hcell; try discriminate Hm.
  destruct (griddata_cell_inv _ _ _ _ _ _ _ Hg Hcell) as [xv [yv [Hr [Hc Hv]]]].
  symmetry in Hv. unfold scipy.linear in Hv.
  destruct (scipy.find_simplex (combine x y) (delaunay (combine x y)) (xv, yv))
    as [[s l]|] eqn:Ef; [|discriminate Hv].
  apply find_simplex_some in Ef. destruct Ef as [Hs Hloc].
  exists xv, yv, s. repeat split; try assumption.
  - eapply located_in_triangle. exact Hloc.
  - eapply locate_in_hull. exact Hloc.
Qed.

Lemma field_cells_witness :
  exists grid_z,
    scipy.griddata (qhull := one_triangle) ([0; 3; 0], [0; 0; 3]) [1; 2; 4]
      (np.meshgrid [0; 1; 2] [0; 1; 2]) = Ok grid_z
    /\ length grid_z = 3%nat
    /\ Forall (fun row => length row = 3%nat) grid_z
    /\ length (np.mask (np.masked_invalid grid_z)) = 3%nat
    /\ Forall (fun row => length row = 3%nat) (np.mask (np.masked_invalid grid_z))
    /\ forall r c,
         np.mask_at (np.masked_invalid grid_z) r c = Some false ->
         exists xv yv s,
           nth_error [0; 1; 2] r = Some yv /\ nth_error [0; 1; 2] c = Some xv
           /\ In s (delaunay (Qhull := one_triangle) (combine [0; 3; 0] [0; 0; 3]))
           /\ hull.in_triangle (combine [0; 3; 0] [0; 0; 3]) s (xv, yv)
           /\ hull.in_hull (combine [0; 3; 0] [0; 0; 3]) (xv, yv).
Proof.
  eexists. split; [reflexivity|].
  apply (@field_cells one_triangle [0; 3; 0] [0; 0; 3] [1; 2; 4]
           [0; 1; 2] [0; 1; 2] _ eq_refl).
Defined.

(** ** One iteration of the loop, case by case *)

Lemma fraction_in_range (len i : nat) :
  (i < len)%nat -> st.in_range (fraction_at len i) = true.
Proof.
  intros Hi. unfold st.in_range, fraction_at.
  assert (Hn : 0 < inject_Z (Z.of_nat len)).
  { change 0 with (inject_Z 0). rewrite <- Zlt_Qlt. lia. }
  assert (H1 : 0 <= inject_Z (Z.of_nat i + 1)).
  { change 0 with (inject_Z 0). rewrite <- Zle_Qle. lia. }
  assert (H2 : inject_Z (Z.of_nat i + 1) <= inject_Z (Z.of_nat len)).
  { rewrite <- Zle_Qle. lia. }
  apply andb_true_iff. split; apply Qle_bool_iff.
  - apply Qle_shift_div_l; [exact Hn | lra].
  - apply Qle_shift_div_r; [exact Hn | lra].
Qed.

Lemma grid_ranges_raise (x y : list Q) (grid_spacing : Q) (e : exn) :
  x <> [] -> y <> [] -> grid_ranges x y grid_spacing = Raise e ->
  e = ArangeError /\ grid_spacing == 0.
Proof.
  intros Hx Hy H.
  destruct (Qeq_bool grid_spacing 0) eqn:E.
  - apply Qeq_bool_iff in E.
    rewrite (grid_ranges_zero_spacing y Hx E) in H. inversion H.
    split; [reflexivity | exact E].
  - apply Qeq_bool_neq in E.
    destruct (grid_ranges_total Hx Hy E) as [xr [yr Eg]].
    rewrite Eg in H. discriminate H.
Qed.

Section Iteration.

Context {qhull : Qhull} {mpl : Matplotlib}.

Variable las : las_data.
Variable selected_classes : list Z.
Variable custom_colors : dict.t (string * string).
Variable line_width : Q.
Variable grid_spacing : Q.

Local Abbreviation body :=
  (class_body las selected_classes custom_colors line_width grid_spacing).
Local Abbreviation drawn_by :=
  (call_of las custom_colors line_width grid_spacing).
Local Abbreviation len := (length selected_classes).

(** An iteration that returns either skipped the class or made one
    [contour] call, labelled it and reported one fraction. *)
Lemma class_body_returns (i : nat) (c : Z) (ax ax' : Axes) (bar bar' : st.progress_bar) :
  body i c (ax, bar) = Ok (ax', bar') ->
  (ax' = ax /\ bar' = bar /\ forall call, ~ drawn_by c call)
  \/ exists call contours ax1,
       drawn_by c call
       /\ contour ax call = Ok (ax1, contours)
       /\ clabel ax1 contours = Ok ax'
       /\ bar' = bar ++ [fraction_at len i].
Proof.
  unfold class_body.
  destruct (dict.getitem custom_colors c) as [[classification color]|] eqn:Ec;
    cbn [bind]; [|discriminate].
  destruct (select_class las c) as [[[x y] z]|] eqn:Es; cbn [bind]; [|discriminate].
  destruct (length z <? 100)%nat eqn:En.
  { intros H. inversion H; subst. left. repeat split.
    intros call (cl & x' & y' & z' & xr & yr & g & _ & Es' & Hn & _).
    rewrite Es in Es'. inversion Es'; subst.
    apply Nat.ltb_lt in En. lia. }
  apply Nat.ltb_ge in En.
  destruct (grid_ranges x y grid_spacing) as [[x_range y_range]|] eqn:Eg;
    cbn [bind]; [|discriminate].
  destruct (np.meshgrid x_range y_range) as [grid_x grid_y] eqn:Em.
  destruct (scipy.griddata (x, y) z (grid_x, grid_y)) as [grid_z|] eqn:Ez;
    cbn [bind]; [|discriminate].
  destruct (np.mask_all (np.masked_invalid grid_z)) eqn:Ea.
  { intros H. inversion H; subst. left. repeat split.
    intros call (cl & x' & y' & z' & xr & yr & g & _ & Es' & _ & Eg' & _ & _ & Ez' & EZ & Ea' & _).
    rewrite Es in Es'. inversion Es'; subst.
    rewrite Eg in Eg'. inversion Eg'; subst.
    rewrite Em, Ez in Ez'. inversion Ez'; subst.
    rewrite EZ, Ea in Ea'. discriminate Ea'. }
  destruct (contour_levels z) as [levels|] eqn:El; cbn [bind]; [|discriminate].
  destruct (contour ax _) as [[ax1 contours]|] eqn:Ed; cbn [bind]; [|discriminate].
  destruct (clabel ax1 contours) as [ax2|] eqn:Eb; cbn [bind]; [|discriminate].
  destruct (truediv _ _) as [f|] eqn:Ef; cbn [bind]; [|discriminate].
  destruct (st.update bar f) as [bar1|] eqn:Eu; cbn [bind]; [|discriminate].
  intros H. inversion H; subst. right.
  eexists. exists contours, ax1.
  split; [|split; [exact Ed|split; [exact Eb|]]].
  - exists classification, x, y, z, x_range, y_range, grid_z.
    rewrite Em. simpl. repeat split; try assumption; reflexivity.
  - apply update_ok in Eu. destruct Eu as [-> _].
    unfold truediv in Ef. destruct (Z.eqb (Z.of_nat len) 0); inversion Ef.
    reflexivity.
Qed.

(** An iteration that raises does so in [np.arange], in Qhull or in
    Matplotlib: for a class with its colour in place and an index within
    the selection, nothing else in the body can fail. *)
Lemma class_body_raises (i : nat) (c : Z) (s : Axes * st.progress_bar)
    (style : string * string) (e : exn) :
  dict.getitem custom_colors c = Ok style -> (i < len)%nat ->
  body i c s = Raise e ->
  (e = ArangeError /\ grid_spacing == 0 /\ large_enough las c = true)
  \/ (e = QhullError /\ hull.collinear (class_xy las c) /\ large_enough las c = true)
  \/ (exists ax call, contour ax call = Raise e)
  \/ (exists ax contours, clabel ax contours = Raise e).
Proof.
  intros Hc Hi. unfold class_body, large_enough. destruct s as [ax bar].
  rewrite Hc. destruct style as [classification color]. cbn [bind].
  rewrite select_class_eq. cbn [bind]. rewrite length_map.
  destruct (Nat.ltb_spec (length (class_subset las c)) 100) as [|Hn]; [discriminate|].
  simpl negb.
  destruct (grid_ranges _ _ grid_spacing) as [[x_range y_range]|e0] eqn:Eg; cbn [bind].
  2:{ intros H. inversion H; subst. left.
      apply grid_ranges_raise in Eg; try (apply long_column_nonempty; exact Hn).
      destruct Eg as [-> E0]. repeat split. exact E0. }
  destruct (np.meshgrid x_range y_range) as [grid_x grid_y] eqn:Em.
  destruct (scipy.griddata _ _ (grid_x, grid_y)) as [grid_z|e0] eqn:Ez; cbn [bind].
  2:{ intros H. inversion H; subst. right. left.
      unfold scipy.griddata in Ez. rewrite !length_map, !Nat.eqb_refl in Ez.
      simpl in Ez. rewrite combine_columns in Ez. fold (class_xy las c) in Ez.
      destruct (scipy.collinearb (class_xy las c)) eqn:Eb; [|discriminate Ez].
      inversion Ez. repeat split. apply collinearb_true. exact Eb. }
  destruct (np.mask_all (np.masked_invalid grid_z)); [discriminate|].
  destruct (@contour_levels_total (map pt_z (class_subset las c))) as [levels El];
    [apply long_column_nonempty; exact Hn|].
  rewrite El. cbn [bind].
  destruct (contour ax _) as [[ax1 contours]|e0] eqn:Ed; cbn [bind].
  2:{ intros H. inversion H; subst. right. right. left. eexists. eexists. exact Ed. }
  destruct (clabel ax1 contours) as [ax2|e0] eqn:Eb; cbn [bind].
  2:{ intros H. inversion H; subst. right. right. right. eexists. eexists. exact Eb. }
  unfold truediv. destruct (Z.eqb_spec (Z.of_nat len) 0) as [E0|_]; [lia|].
  cbn [bind]. unfold st.update.
  change (inject_Z (Z.of_nat i + 1) / inject_Z (Z.of_nat len)) with (fraction_at len i).
  rewrite (fraction_in_range Hi). discriminate.
Qed.

End Iteration.

(** ** A whole request, class by class *)

Section Requests.

Context {qhull : Qhull} {mpl : Matplotlib}.

Variable las : las_data.
Variable selected_classes : list Z.
Variable custom_colors : dict.t (string * string).
Variable line_width : Q.
Variable grid_spacing : Q.

Local Abbreviation loop :=
  (for_classes las selected_classes custom_colors line_width grid_spacing).
Local Abbreviation drawn_by :=
  (call_of las custom_colors line_width grid_spacing).
Local Abbreviation len := (length selected_classes).

(** The classes drawn by the rest of the loop, with their indices and
    their calls. *)
Lemma for_classes_trace (i : nat) (classes : list Z) (ax ax' : Axes)
    (bar bar' : st.progress_bar) :
  loop i classes (ax, bar) = Ok (ax', bar') ->
  exists steps : list (nat * contour_args),
    StronglySorted lt (map fst steps)
    /\ Forall (fun step => (i <= fst step)%nat
                 /\ exists c, nth_error classes (fst step - i) = Some c
                              /\ drawn_by c (snd step)) steps
    /\ (forall k c call, nth_error classes k = Some c -> drawn_by c call ->
          In (i + k)%nat (map fst steps))
    /\ bar' = bar ++ map (fun step => fraction_at len (fst step)) steps
    /\ drawn_onto ax (map snd steps) ax'.
Proof.
  revert i ax bar. induction classes as [|c classes IH]; intros i ax bar; simpl.
  - intros H. inversion H; subst. exists []. simpl.
    repeat split; try constructor.
    + intros [|k] c call Hk; discriminate Hk.
    + rewrite app_nil_r. reflexivity.
  - intros H. apply bind_ok in H. destruct H as [[ax1 bar1] [Hbody Hrest]].
    destruct (IH _ _ _ Hrest) as [steps [Hs [Hall [Hfull [Hbar Hdraw]]]]].
    assert (Hshift : Forall (fun step => (i <= fst step)%nat
                       /\ exists c0, nth_error (c :: classes) (fst step - i) = Some c0
                                     /\ drawn_by c0 (snd step)) steps).
    { eapply Forall_impl; [|exact Hall]. cbv beta.
      intros step [Hle [c0 [Hn Hd]]]. split; [lia|]. exists c0. split; [|exact Hd].
      replace (fst step - i)%nat with (S (fst step - S i)) by lia. exact Hn. }
    apply class_body_returns in Hbody.
    destruct Hbody as [[-> [-> Hno]]|[call [contours [ax0 [Hd [Hc [Hl ->]]]]]]].
    + exists steps. repeat split; try assumption.
      intros [|k] c0 call Hk Hd.
      * inversion Hk; subst. exfalso. apply (Hno call). exact Hd.
      * rewrite Nat.add_succ_r. apply (Hfull k c0 call Hk Hd).
    + exists ((i, call) :: steps). simpl. repeat split.
      * constructor; [exact Hs|].
        apply Forall_forall. intros j Hj. apply in_map_iff in Hj.
        destruct Hj as [step [<- Hstep]].
        rewrite Forall_forall in Hall. destruct (Hall step Hstep) as [Hle _]. lia.
      * constructor; [|exact Hshift]. simpl. split; [lia|].
        exists c. rewrite Nat.sub_diag. split; [reflexivity | exact Hd].
      * intros [|k] c0 call0 Hk Hd0.
        -- left. lia.
        -- right. rewrite Nat.add_succ_r. apply (Hfull k c0 call0 Hk Hd0).
      * rewrite Hbar, <- app_assoc. reflexivity.
      * econstructor; eassumption.
Qed.

(** X12.  The bar of a completed request shows its initial 0 and then,
    in selection order, the fraction [(i + 1) / len(selected_classes)] for
    exactly those positions [i] of the selection whose class was drawn;
    a skipped class adds nothing. *)
Theorem reported_values (out : output) :
  generate las selected_classes custom_colors line_width grid_spacing = Ok out ->
  exists indices : list nat,
    StronglySorted lt indices
    /\ (forall i, In i indices <->
                  exists c call, nth_error selected_classes i = Some c /\ drawn_by c call)
    /\ reported out = 0 :: map (fraction_at len) indices.
Proof.
  rewrite generate_eq. intros H. apply bind_ok in H.
  destruct H as [[ax bar] [Hloop Hout]]. inversion Hout; subst. simpl.
  destruct (@for_classes_trace 0%nat selected_classes subplots ax [0] bar Hloop) as [steps [Hs [Hall [Hfull [Hbar _]]]]].
  exists (map fst steps). split; [exact Hs|]. split.
  - intros i. split.
    + intros Hi. apply in_map_iff in Hi. destruct Hi as [step [<- Hstep]].
      rewrite Forall_forall in Hall. destruct (Hall step Hstep) as [_ [c [Hn Hd]]].
      rewrite Nat.sub_0_r in Hn. exists c, (snd step). split; assumption.
    + intros [c [call [Hn Hd]]]. apply (Hfull i c call Hn Hd).
  - rewrite Hbar, map_map. reflexivity.
Qed.

(** X13.  The image of a completed request is the blank figure after one
    [contour] call, each followed by its [clabel], for exactly the selected
    classes that pass both tests, in selection order, so that a class
    selected later is drawn later; the axes are switched off at the end,
    and the bar has shown one fraction for each of these calls. *)
Theorem drawn_layers (out : output) :
  generate las selected_classes custom_colors line_width grid_spacing = Ok out ->
  exists (steps : list (nat * contour_args)) (ax : Axes),
    StronglySorted lt (map fst steps)
    /\ Forall (fun step => exists c, nth_error selected_classes (fst step) = Some c
                                     /\ drawn_by c (snd step)) steps
    /\ (forall i c call, nth_error selected_classes i = Some c -> drawn_by c call ->
          In i (map fst steps))
    /\ drawn_onto subplots (map snd steps) ax
    /\ image out = axis_off ax
    /\ reported out = 0 :: map (fun step => fraction_at len (fst step)) steps.
Proof.
  rewrite generate_eq. intros H. apply bind_ok in H.
  destruct H as [[ax bar] [Hloop Hout]]. inversion Hout; subst. simpl.
  destruct (@for_classes_trace 0%nat selected_classes subplots ax [0] bar Hloop)
    as [steps [Hs [Hall [Hfull [Hbar Hdraw]]]]].
  exists steps, ax. split; [exact Hs|]. split; [|split; [|split; [|split]]].
  - eapply Forall_impl; [|exact Hall]. cbv beta. intros step [_ [c [Hn Hd]]].
    rewrite Nat.sub_0_r in Hn. exists c. split; assumption.
  - intros i c call Hn Hd. apply (Hfull i c call Hn Hd).
  - exact Hdraw.
  - reflexivity.
  - exact Hbar.
Qed.

(** What can go wrong in the rest of the loop. *)
Lemma for_classes_raises (i : nat) (classes : list Z) (s : Axes * st.progress_bar)
    (e : exn) :
  (forall c, In c classes -> exists style, dict.getitem custom_colors c = Ok style) ->
  (i + length classes <= len)%nat ->
  loop i classes s = Raise e ->
  (e = ArangeError /\ grid_spacing == 0)
  \/ (e = QhullError
      /\ exists c, In c classes /\ hull.collinear (class_xy las c)
                   /\ large_enough las c = true)
  \/ (exists ax call, contour ax call = Raise e)
  \/ (exists ax contours, clabel ax contours = Raise e).
Proof.
  revert i s. induction classes as [|c classes IH]; intros i s Hkeys Hlen; simpl.
  - discriminate.
  - simpl in Hlen.
    destruct (class_body las selected_classes custom_colors line_width grid_spacing
                i c s) as [s'|e'] eqn:Hbody; cbn [bind].
    + intros Hrest. apply IH in Hrest.
      * destruct Hrest as [H|[[He [c0 [Hin H]]]|H]]; [left; exact H| |right; right; exact H].
        right. left. split; [exact He|]. exists c0. split; [right; exact Hin | exact H].
      * intros c0 Hc0. apply Hkeys. right. exact Hc0.
      * lia.
    + intros H. inversion H; subst.
      destruct (Hkeys c (or_introl eq_refl)) as [style Hstyle].
      apply (@class_body_raises qhull mpl las selected_classes custom_colors
               line_width grid_spacing i c s style e Hstyle) in Hbody; [|lia].
      destruct Hbody as [[He [H0 _]]|[[He [Hcol Hbig]]|H']].
      * left. split; assumption.
      * right. left. split; [exact He|]. exists c. repeat split; try assumption.
        left. reflexivity.
      * right. right. exact H'.
Qed.

End Requests.

(** X14.  An exception that ends the loop of a request comes from
    [np.arange], from [griddata] or from Matplotlib's [contour] or
    [clabel].  The colour lookup, the filtering, the minimum and maximum,
    the division and the progress bar never raise. *)
Theorem request_failures (qhull : Qhull) (mpl : Matplotlib)
    (color_picker : Z -> string -> string -> string) (las : las_data)
    (selected_classes : list Z) (line_width grid_spacing : Q) (e : exn) :
  run color_picker las selected_classes line_width grid_spacing = Raise e ->
  e = ArangeError
  \/ e = QhullError
  \/ (exists ax call, contour ax call = Raise e)
  \/ (exists ax contours, clabel ax contours = Raise e).
Proof.
  unfold run. rewrite generate_eq.
  destruct (for_classes _ _ _ _ _ _ _ _) as [s|e'] eqn:Hloop; cbn [bind]; [discriminate|].
  intros H. inversion H; subst.
  apply for_classes_raises in Hloop; [| | simpl; lia].
  - destruct Hloop as [[He _]|[[He _]|H']].
    + left. exact He.
    + right. left. exact He.
    + right. right. exact H'.
  - intros c Hc. apply customize_colors_getitem. exact Hc.
Qed.

Lemma request_failures_witness :
  QhullError = ArangeError
  \/ QhullError = QhullError
  \/ (exists ax call, contour (Matplotlib := recording_axes) ax call = Raise QhullError)
  \/ (exists ax contours,
        clabel (Matplotlib := recording_axes) ax contours = Raise QhullError).
Proof.
  apply (@request_failures one_triangle recording_axes default_picker
           (points_on_a_line 100 5) [5%Z] 1 1 QhullError).
  vm_compute. reflexivity.
Defined.

Lemma reported_values_witness :
  exists out,
    generate (qhull := lattice_triangles) (mpl := recording_axes)
      (points_on_a_lattice 100 2 ++ points_on_a_line 50 3) [3%Z; 2%Z; 3%Z]
      (customize_colors default_picker [3%Z; 2%Z; 3%Z]) 0.6 3 = Ok out
    /\ exists indices : list nat,
         StronglySorted lt indices
         /\ (forall i, In i indices <->
               exists c call,
                 nth_error [3%Z; 2%Z; 3%Z] i = Some c
                 /\ call_of (qhull := lattice_triangles) (points_on_a_lattice 100 2 ++ points_on_a_line 50 3)
                      (customize_colors default_picker [3%Z; 2%Z; 3%Z]) 0.6 3 c call)
         /\ reported out = 0 :: map (fraction_at 3) indices.
Proof.
  destruct (generate (qhull := lattice_triangles) (mpl := recording_axes)
              (points_on_a_lattice 100 2 ++ points_on_a_line 50 3) [3%Z; 2%Z; 3%Z]
              (customize_colors default_picker [3%Z; 2%Z; 3%Z]) 0.6 3)
    as [out|e] eqn:E; [|vm_compute in E; discriminate E].
  exists out. split; [reflexivity|].
  exact (@reported_values lattice_triangles recording_axes _ _ _ _ _ out E).
Defined.

Lemma drawn_layers_witness :
  exists out,
    generate (qhull := lattice_triangles) (mpl := recording_axes)
      (points_on_a_lattice 100 2 ++ points_on_a_line 50 3) [3%Z; 2%Z; 3%Z]
      (customize_colors default_picker [3%Z; 2%Z; 3%Z]) 0.6 3 = Ok out
    /\ exists (steps : list (nat * contour_args)) (ax : Axes),
         StronglySorted lt (map fst steps)
         /\ Forall (fun step =>
               exists c, nth_error [3%Z; 2%Z; 3%Z] (fst step) = Some c
                 /\ call_of (qhull := lattice_triangles) (points_on_a_lattice 100 2 ++ points_on_a_line 50 3)
                      (customize_colors default_picker [3%Z; 2%Z; 3%Z]) 0.6 3 c
                      (snd step)) steps
         /\ (forall i c call,
               nth_error [3%Z; 2%Z; 3%Z] i = Some c ->
               call_of (qhull := lattice_triangles) (points_on_a_lattice 100 2 ++ points_on_a_line 50 3)
                 (customize_colors default_picker [3%Z; 2%Z; 3%Z]) 0.6 3 c call ->
               In i (map fst steps))
         /\ drawn_onto subplots (map snd steps) ax
         /\ image out = axis_off ax
         /\ reported out = 0 :: map (fun step => fraction_at 3 (fst step)) steps.
Proof.
  destruct (generate (qhull := lattice_triangles) (mpl := recording_axes)
              (points_on_a_lattice 100 2 ++ points_on_a_line 50 3) [3%Z; 2%Z; 3%Z]
              (customize_colors default_picker [3%Z; 2%Z; 3%Z]) 0.6 3)
    as [out|e] eqn:E; [|vm_compute in E; discriminate E].
  exists out. split; [reflexivity|].
  exact (@drawn_layers lattice_triangles recording_axes _ _ _ _ _ out E).
Defined.

(** On axes that remember their calls, drawing appends them. *)
Lemma recorded_calls (ax ax' : @Axes recording_axes) (calls : list contour_args) :
  drawn_onto ax calls ax' -> ax' = ax ++ calls.
Proof.
  intros H. induction H as [ax|ax ax1 ax2 ax3 call contours calls Hc Hl _ IH].
  - rewrite app_nil_r. reflexivity.
  - simpl in Hc, Hl. inversion Hc; subst. inversion Hl; subst.
    rewrite <- app_assoc. reflexivity.
Qed.

(** ** When the bar reaches 1 *)

Lemma sorted_last (l : list nat) (d : nat) :
  StronglySorted lt l -> l <> [] ->
  In (last l d) l /\ Forall (fun x => (x <= last l d)%nat) l.
Proof.
  induction l as [|a l IH]; intros Hs Hne; [contradiction|].
  inversion Hs as [|? ? Hs' Ha]; subst.
  destruct l as [|b l].
  - simpl. split; [left; reflexivity | constructor; [lia | constructor]].
  - destruct (IH Hs') as [Hin Hall]; [discriminate|].
    change (last (a :: b :: l) d) with (last (b :: l) d).
    split; [right; exact Hin|].
    constructor; [|exact Hall].
    rewrite Forall_forall in Ha. specialize (Ha _ Hin). lia.
Qed.

Lemma last_of_map (f : nat -> Q) (a d0 : Q) (l : list nat) (d : nat) :
  l <> [] -> last (a :: map f l) d0 = f (last l d).
Proof.
  revert a. induction l as [|b l IH]; intros a Hne; [contradiction|].
  destruct l as [|c l]; [reflexivity|].
  change (last (a :: map f (b :: c :: l)) d0) with (last (f b :: map f (c :: l)) d0).
  change (last (b :: c :: l) d) with (last (c :: l) d).
  apply IH. discriminate.
Qed.

Lemma fraction_is_one (len i : nat) :
  (0 < len)%nat -> (fraction_at len i == 1 <-> S i = len).
Proof.
  intros Hn. unfold fraction_at.
  assert (Hq : ~ inject_Z (Z.of_nat len) == 0).
  { change 0 with (inject_Z 0). rewrite inject_Z_injective. lia. }
  split.
  - intros H.
    assert (E : inject_Z (Z.of_nat i + 1) == inject_Z (Z.of_nat len)).
    { setoid_replace (inject_Z (Z.of_nat i + 1))
        with (inject_Z (Z.of_nat i + 1) / inject_Z (Z.of_nat len)
              * inject_Z (Z.of_nat len)) by (field; exact Hq).
      rewrite H. ring. }
    rewrite inject_Z_injective in E. lia.
  - intros <-. replace (Z.of_nat i + 1)%Z with (Z.of_nat (S i)) by lia.
    field. exact Hq.
Qed.

(** X15.  The bar of a completed request ends at 1 exactly when the last
    selected class was drawn; when that class was skipped it ends at the
    fraction of the last drawn class, or at 0 if none was drawn. *)
Theorem progress_ends_at_one (qhull : Qhull) (mpl : Matplotlib) (las : las_data)
    (selected_classes : list Z) (custom_colors : dict.t (string * string))
    (line_width grid_spacing : Q) (out : output) :
  generate las selected_classes custom_colors line_width grid_spacing = Ok out ->
  (last (reported out) 0 == 1
   <-> exists c call,
         nth_error selected_classes (length selected_classes - 1) = Some c
         /\ call_of las custom_colors line_width grid_spacing c call).
Proof.
  rewrite generate_eq. intros H. apply bind_ok in H.
  destruct H as [[ax bar] [Hloop Hout]]. inversion Hout; subst. simpl.
  destruct (@for_classes_trace qhull mpl las selected_classes custom_colors
              line_width grid_spacing 0%nat selected_classes subplots ax [0] bar Hloop)
    as [steps [Hs [Hall [Hfull [-> _]]]]].
  set (indices := map fst steps) in *.
  assert (Hin : forall i, In i indices <->
                  exists c call, nth_error selected_classes i = Some c
                    /\ call_of las custom_colors line_width grid_spacing c call).
  { intros i. split.
    - intros Hi. apply in_map_iff in Hi. destruct Hi as [step [<- Hstep]].
      rewrite Forall_forall in Hall. destruct (Hall step Hstep) as [_ [c [Hn Hd]]].
      rewrite Nat.sub_0_r in Hn. exists c, (snd step). split; assumption.
    - intros [c [call [Hn Hd]]]. apply (Hfull i c call Hn Hd). }
  replace (map (fun step => fraction_at (length selected_classes) (fst step)) steps)
    with (map (fraction_at (length selected_classes)) indices)
    by (unfold indices; rewrite map_map; reflexivity).
  clearbody indices. clear Hall Hfull Hloop Hout.
  change ([0] ++ map (fraction_at (length selected_classes)) indices)
    with (0 :: map (fraction_at (length selected_classes)) indices).
  assert (Hlt : forall i, In i indices -> (i < length selected_classes)%nat).
  { intros i Hi. apply Hin in Hi. destruct Hi as [c [_ [Hn _]]].
    eapply nth_error_length. exact Hn. }
  destruct indices as [|j rest] eqn:Ei.
  - simpl. split.
    + intros H. exfalso. vm_compute in H. discriminate H.
    + intros Hd. apply Hin in Hd. destruct Hd.
  - rewrite <- Ei in *.
    assert (Hne : indices <> []) by (rewrite Ei; discriminate).
    rewrite (@last_of_map (fraction_at (length selected_classes)) 0 0 indices 0%nat Hne).
    destruct (@sorted_last indices 0%nat Hs Hne) as [Hl Hmax].
    pose proof (Hlt _ Hl) as Hl'.
    rewrite fraction_is_one by lia. split.
    + intros E. apply Hin.
      replace (length selected_classes - 1)%nat with (last indices 0%nat) by lia.
      exact Hl.
    + intros Hd. apply Hin in Hd. rewrite Forall_forall in Hmax.
      specialize (Hmax _ Hd). lia.
Qed.

Lemma progress_ends_at_one_witness :
  exists out,
    generate (qhull := lattice_triangles) (mpl := recording_axes)
      (points_on_a_lattice 100 2 ++ points_on_a_line 50 3) [3%Z; 2%Z]
      (customize_colors default_picker [3%Z; 2%Z]) 0.6 3 = Ok out
    /\ (last (reported out) 0 == 1
        <-> exists c call,
              nth_error [3%Z; 2%Z] (length [3%Z; 2%Z] - 1) = Some c
              /\ call_of (qhull := lattice_triangles) (points_on_a_lattice 100 2 ++ points_on_a_line 50 3)
                   (customize_colors default_picker [3%Z; 2%Z]) 0.6 3 c call).
Proof.
  destruct (generate (qhull := lattice_triangles) (mpl := recording_axes)
              (points_on_a_lattice 100 2 ++ points_on_a_line 50 3) [3%Z; 2%Z]
              (customize_colors default_picker [3%Z; 2%Z]) 0.6 3)
    as [out|e] eqn:E; [|vm_compute in E; discriminate E].
  exists out. split; [reflexivity|].
  exact (@progress_ends_at_one lattice_triangles recording_axes _ _ _ _ _ out E).
Defined.

(** ** A class whose grid misses its hull *)

Lemma weighted_between (a b lo hi : Q) (points : list pt) (w : list Q) :
  length w = length points -> Forall (fun t => 0 <= t) w ->
  (forall p, In p points -> lo <= a * fst p + b * snd p /\ a * fst p + b * snd p <= hi) ->
  lo * hull.total w
  <= a * hull.wsum w (map fst points) + b * hull.wsum w (map snd points)
  /\ a * hull.wsum w (map fst points) + b * hull.wsum w (map snd points)
     <= hi * hull.total w.
Proof.
  revert w. induction points as [|p points IH]; intros [|t w] Hl Hw Hp;
    try discriminate Hl; simpl.
  - split; lra.
  - inversion Hw as [|? ? Ht Hw']; subst.
    destruct (IH w) as [L U]; [simpl in Hl; lia | exact Hw' | |].
    { intros q Hq. apply Hp. right. exact Hq. }
    destruct (Hp p (or_introl eq_refl)) as [Lp Up].
    assert (A : 0 <= t * (a * fst p + b * snd p - lo))
      by (apply Qmult_le_0_compat; lra).
    assert (B : 0 <= t * (hi - (a * fst p + b * snd p)))
      by (apply Qmult_le_0_compat; lra).
    split; lra.
Qed.

(** A linear bound that holds at every sample holds on the whole hull. *)
Lemma hull_between (a b lo hi : Q) (points : list pt) (q : pt) :
  (forall p, In p points -> lo <= a * fst p + b * snd p /\ a * fst p + b * snd p <= hi) ->
  hull.in_hull points q ->
  lo <= a * fst q + b * snd q /\ a * fst q + b * snd q <= hi.
Proof.
  intros Hp [w [Hl [Hw [Ht [Hx Hy]]]]].
  destruct (@weighted_between a b lo hi points w Hl Hw Hp) as [L U].
  rewrite Ht in L, U. rewrite Hx, Hy. split; lra.
Qed.

Lemma mask_all_true (g : list (list (option Q))) :
  (forall r c cell, np.data_at g r c = Some cell -> cell = None) ->
  np.mask_all (np.masked_invalid g) = true.
Proof.
  intros H. unfold np.mask_all, np.masked_invalid. simpl.
  apply forallb_forall. intros mrow Hm. apply in_map_iff in Hm.
  destruct Hm as [row [<- Hrow]].
  apply forallb_forall. intros bit Hb. apply in_map_iff in Hb.
  destruct Hb as [cell [<- Hcell]].
  apply In_nth_error in Hrow, Hcell.
  destruct Hrow as [r Hr], Hcell as [c Hc].
  rewrite (H r c cell); [reflexivity|].
  unfold np.data_at. rewrite Hr. exact Hc.
Qed.

(** X16.  A class with at least 100 points that span a triangle is still
    skipped, without a layer and without progress, when no node of its
    grid lies in the convex hull of its points: the field is then NaN
    everywhere and the second [continue] is taken. *)
Theorem class_outside_hull_skipped (qhull : Qhull) (mpl : Matplotlib) (las : las_data)
    (selected_classes : list Z) (custom_colors : dict.t (string * string))
    (line_width grid_spacing : Q) (i : nat) (c : Z) (s : Axes * st.progress_bar)
    (style : string * string) (x_range y_range : list Q) :
  dict.getitem custom_colors c = Ok style ->
  (100 <= length (class_subset las c))%nat ->
  ~ hull.collinear (class_xy las c) ->
  grid_ranges (map pt_x (class_subset las c)) (map pt_y (class_subset las c))
    grid_spacing = Ok (x_range, y_range) ->
  (forall xv yv, In xv x_range -> In yv y_range ->
                 ~ hull.in_hull (class_xy las c) (xv, yv)) ->
  class_body las selected_classes custom_colors line_width grid_spacing i c s = Ok s.
Proof.
  intros Hc Hn Hcol Hg Hout. unfold class_body. destruct s as [ax bar].
  rewrite Hc. destruct style as [classification color]. cbn [bind].
  rewrite select_class_eq. cbn [bind]. rewrite length_map.
  destruct (Nat.ltb_spec (length (class_subset las c)) 100); [lia|].
  rewrite Hg. cbn [bind].
  destruct (scipy.griddata (map pt_x (class_subset las c), map pt_y (class_subset las c))
              (map pt_z (class_subset las c)) (np.meshgrid x_range y_range))
    as [grid_z|e] eqn:Ez.
  2:{ exfalso. unfold scipy.griddata in Ez.
      rewrite !length_map, !Nat.eqb_refl, combine_columns in Ez. simpl in Ez.
      fold (class_xy las c) in Ez.
      destruct (scipy.collinearb (class_xy las c)) eqn:Eb; [|discriminate Ez].
      apply Hcol. apply collinearb_true. exact Eb. }
  destruct (np.meshgrid x_range y_range) as [grid_x grid_y] eqn:Em.
  rewrite Ez. cbn [bind].
  rewrite mask_all_true; [reflexivity|].
  intros r k cell Hcell.
  rewrite <- Em in Ez.
  destruct (@griddata_cell_inv qhull _ _ _ x_range y_range grid_z r k cell Ez Hcell)
    as [xv [yv [Hr [Hk ->]]]].
  destruct (scipy.linear _ _ _ _) as [v|] eqn:El; [|reflexivity].
  exfalso. apply linear_some_in_hull in El. rewrite combine_columns in El.
  apply (Hout xv yv); [eapply nth_error_In; exact Hk
                      | eapply nth_error_In; exact Hr | exact El].
Qed.

Lemma two_diagonals_band (p : pt) :
  In p (class_xy (two_diagonals 14) 14) ->
  48.25 <= 1 * fst p + 1 * snd p /\ 1 * fst p + 1 * snd p <= 48.75.
Proof.
  intros Hp.
  assert (Hall : forallb (fun p => Qle_bool 48.25 (1 * fst p + 1 * snd p)
                                   && Qle_bool (1 * fst p + 1 * snd p) 48.75)
                   (class_xy (two_diagonals 14) 14) = true)
    by (vm_compute; reflexivity).
  rewrite forallb_forall in Hall. specialize (Hall p Hp).
  apply andb_true_iff in Hall. destruct Hall as [H1 H2].
  apply Qle_bool_iff in H1, H2. split; assumption.
Qed.

Lemma class_outside_hull_skipped_witness :
  class_body (qhull := lattice_triangles) (mpl := recording_axes)
    (two_diagonals 14) [14%Z] (customize_colors default_picker [14%Z]) 0.6 10
    0 14 (subplots, [0])
  = Ok (subplots, [0]).
Proof.
  eapply (@class_outside_hull_skipped lattice_triangles recording_axes
            (two_diagonals 14) [14%Z] (customize_colors default_picker [14%Z]) 0.6 10
            0%nat 14%Z (subplots, [0]) ("Wire Conductor", "deepskyblue")%string).
  - reflexivity.
  - apply Nat.leb_le. vm_compute. reflexivity.
  - intros Hcol. apply collinearb_true in Hcol. vm_compute in Hcol. discriminate Hcol.
  - vm_compute. reflexivity.
  - intros xv yv Hx Hy Hin.
    apply (@hull_between 1 1 48.25 48.75 (class_xy (two_diagonals 14) 14) (xv, yv)
             two_diagonals_band) in Hin. simpl in Hin.
    destruct Hin as [L U]. apply Qle_bool_iff in L, U.
    match type of Hx with
    | In _ ?xr =>
        match type of Hy with
        | In _ ?yr =>
            assert (Hno : forallb (fun u => forallb (fun v =>
                      negb (Qle_bool 48.25 (1 * u + 1 * v)
                            && Qle_bool (1 * u + 1 * v) 48.75)) yr) xr = true)
              by (vm_compute; reflexivity)
        end
    end.
    rewrite forallb_forall in Hno. specialize (Hno xv Hx).
    rewrite forallb_forall in Hno. specialize (Hno yv Hy).
    rewrite L, U in Hno. discriminate Hno.
Defined.

Lemma reported_fractions_sorted_witness :
  exists out,
    generate (qhull := lattice_triangles) (mpl := recording_axes)
      (points_on_a_lattice 100 2 ++ points_on_a_line 50 3) [3%Z; 2%Z; 3%Z]
      (customize_colors default_picker [3%Z; 2%Z; 3%Z]) 0.6 3 = Ok out
    /\ StronglySorted Qle (reported out)
    /\ Forall (fun v => 0 <= v /\ v <= 1) (reported out).
Proof.
  destruct (generate (qhull := lattice_triangles) (mpl := recording_axes)
              (points_on_a_lattice 100 2 ++ points_on_a_line 50 3) [3%Z; 2%Z; 3%Z]
              (customize_colors default_picker [3%Z; 2%Z; 3%Z]) 0.6 3)
    as [out|e] eqn:E; [|vm_compute in E; discriminate E].
  exists out. split; [reflexivity|].
  exact (@reported_fractions_sorted lattice_triangles recording_axes _ _ _ _ _ out E).
Defined.
